(** * newrelic_lambda_layers.awslambda: the install and uninstall planners

    A shallow embedding of [_add_new_relic] and [_remove_new_relic] of
    [src/newrelic_lambda_layers/awslambda.py], and the properties of the
    planners stated over it.

    The planners work on the dictionary returned by the provider's
    [get_function] call.  They start with [config.copy()], a shallow copy:
    the nested [Variables] dictionary and the [Layers] list stay shared with
    the caller's object, so the embedding threads the contents of that shared
    object through every call (module [Py], type [World]). *)

From Stdlib Require Import String Ascii List Bool Arith Lia.
From stdpp Require Import base option list gmap strings fin_maps.

Local Open Scope string_scope.
Local Open Scope list_scope.
Local Open Scope nat_scope.

(** ** Python values, exceptions and the planner monad *)

Module Py.

(** The values that reach a handler slot or an environment variable:
    [None], a [str], or (for a runtime whose table entry is keyed by a
    handler type) a [dict] of strings. *)
Inductive pyval : Type :=
| PNone
| PStr (s : string)
| PDict (m : gmap string string).

#[global] Instance pyval_eq_dec : EqDecision pyval.
Proof. solve_decision. Defined.

(** Python truthiness ([if x], [not x], [x or y]). *)
Definition truthy (v : pyval) : bool :=
  match v with
  | PNone => false
  | PStr s => negb (String.eqb s "")
  | PDict m => negb (bool_decide (m = ∅))
  end.

(** [x or y] *)
Definition py_or (x y : pyval) : pyval := if truthy x then x else y.

(** [x == y] *)
Definition py_eq (x y : pyval) : bool := bool_decide (x = y).

(** An optional [str] argument ([None] or a string) as a value. *)
Definition of_opt (o : option string) : pyval :=
  match o with
  | Some s => PStr s
  | None => PNone
  end.

(** [s.startswith(p)] *)
Definition startswith (s p : string) : bool := String.prefix p s.

(** The exceptions of the module, and the built-in ones its unguarded
    accesses can raise. *)
Inductive exn : Type :=
| UpdateLambdaException (msg : string)
| MultipleLayersException
| IndexError
| AttributeError
| KeyError.

#[global] Instance exn_eq_dec : EqDecision exn.
Proof. solve_decision. Defined.

Inductive result (A : Type) : Type :=
| Ok (a : A)
| Raise (e : exn).
Arguments Ok {A} a.
Arguments Raise {A} e.

End Py.
Export Py.

(** ** The data the planners read and write *)

(** One entry of ["Layers"] in the function description.  The planners
    read only its ["Arn"]. *)
Record Layer : Type := { Arn : string }.

#[global] Instance Layer_eq_dec : EqDecision Layer.
Proof. solve_decision. Defined.

(** One discovered layer: [layer["LatestMatchingVersion"]["LayerVersionArn"]]
    and [layer["Description"]], either of which may be missing. *)
Record LayerInfo : Type := {
  LayerVersionArn : option string;
  Description : option string
}.

(** The ["Configuration"] of a function.  Every field is read with
    [.get(key, default)], so each may be absent; an absent ["Configuration"]
    or ["Environment"] level is the record with the fields below it absent,
    which the [.get] chains of the source cannot tell apart. *)
Record FunctionInfo : Type := {
  Runtime : option string;
  Handler : option string;
  Layers : option (list Layer);
  Variables : option (gmap string pyval)
}.

(** The contents of the caller's objects, and what was printed. *)
Record World : Type := {
  config : FunctionInfo;
  stdout : list string
}.

(** The keyword arguments a planner returns for
    [update_function_configuration].  [_add_new_relic] puts ARN strings in
    ["Layers"], [_remove_new_relic] the layer entries themselves. *)
Record update_kwargs (L : Type) : Type := {
  FunctionName : string;
  kwHandler : pyval;
  kwVariables : gmap string pyval;
  kwLayers : list L
}.
Arguments FunctionName {L} _.
Arguments kwHandler {L} _.
Arguments kwVariables {L} _.
Arguments kwLayers {L} _.

(** The ["Handler"] entry of a row of [utils.RUNTIME_CONFIG]: one string,
    or a dictionary from handler type to string. *)
Inductive HandlerSpec : Type :=
| HString (s : string)
| HDict (m : gmap string string).

(** ** State and exceptions *)

Definition M (A : Type) : Type := World → result A * World.

#[global] Instance M_ret : MRet M := λ A a w, (Ok a, w).
#[global] Instance M_bind : MBind M := λ A B f m w,
  match m w with
  | (Ok a, w') => f a w'
  | (Raise e, w') => (Raise e, w')
  end.

Definition raise {A} (e : exn) : M A := λ w, (Raise e, w).
Definition when (b : bool) (m : M unit) : M unit := if b then m else mret tt.
Definition get_config : M FunctionInfo := λ w, (Ok (config w), w).
Definition print (line : string) : M unit :=
  λ w, (Ok tt, {| config := config w; stdout := stdout w ++ [line] |}).

Definition set_Variables (f : gmap string pyval → gmap string pyval) : M unit :=
  λ w, (Ok tt,
        {| config := {| Runtime := Runtime (config w);
                        Handler := Handler (config w);
                        Layers := Layers (config w);
                        Variables := f <$> Variables (config w) |};
           stdout := stdout w |}).

Definition set_Layers (f : list Layer → list Layer) : M unit :=
  λ w, (Ok tt,
        {| config := {| Runtime := Runtime (config w);
                        Handler := Handler (config w);
                        Layers := f <$> Layers (config w);
                        Variables := Variables (config w) |};
           stdout := stdout w |}).

(** The object a [.get("Variables", {})] chain returns: the dictionary
    inside the caller's configuration when there is one, a new dictionary
    of the call's own otherwise. *)
Inductive dictref : Type :=
| InConfig
| Fresh (m : gmap string pyval).

(** [d[key] = value] *)
Definition setitem (d : dictref) (key : string) (value : pyval) : M dictref :=
  match d with
  | InConfig => set_Variables (insert key value);; mret InConfig
  | Fresh m => mret (Fresh (<[key := value]> m))
  end.

(** The contents of the dictionary at the time of the read. *)
Definition contents (d : dictref) : M (gmap string pyval) :=
  match d with
  | InConfig => info ← get_config; mret (default ∅ (Variables info))
  | Fresh m => mret m
  end.

Definition tab : string := String (ascii_of_nat 9) EmptyString.
Definition newline : string := String (ascii_of_nat 10) EmptyString.

(** ** The planners *)

Section Planners.

(** The parts of [utils] the planners call.  [utils] is not among the
    sources; the planners are embedded over any table, prefix function,
    layer discovery and handler recognition.  The table maps a runtime to
    the ["Handler"] entry of its row. *)
Variable RUNTIME_CONFIG : gmap string HandlerSpec.
Variable get_arn_prefix : string → string.
Variable get_layers : string → string → list LayerInfo.
Variable is_valid_handler : string → string → bool.

(** [utils.RUNTIME_CONFIG.get(runtime, {}).get("Handler")] *)
Definition table_handler (runtime : string) : pyval :=
  match RUNTIME_CONFIG !! runtime with
  | Some (HString s) => PStr s
  | Some (HDict m) => PDict m
  | None => PNone
  end.

(** [runtime == "provider" or runtime not in utils.RUNTIME_CONFIG.keys()] *)
Definition unsupported (runtime : string) : bool :=
  String.eqb runtime "provider" || negb (bool_decide (is_Some (RUNTIME_CONFIG !! runtime))).

(** [_filter_new_relic_layers], the closure of [_add_new_relic]. *)
Definition _filter_new_relic_layers (region layer_arn : string) : bool :=
  if startswith layer_arn (get_arn_prefix region) then false else true.

(** [_map_response_to_arns] *)
Definition _map_response_to_arns (layer : Layer) : string := Arn layer.

(** [layer.get("LatestMatchingVersion", {}).get("LayerVersionArn", "")] *)
Definition version_arn (layer : LayerInfo) : string :=
  default "" (LayerVersionArn layer).

Definition msg_account : string := "Account ID missing from parameters.".
Definition msg_java : string := "Must specify a handler type for java functions.".
Definition msg_installed : string :=
  "Already installed. Pass --upgrade (or -u) to allow upgrade or reinstall to latest layer version.".
Definition msg_unsupported (runtime : string) : string :=
  "Unsupported Lambda runtime: " +:+ runtime.

(** Lines 37-63: the reads and the four guards.  Returns the runtime, the
    handler found in the configuration and the instrumentation handler. *)
Definition _add_new_relic_guards
    (account_id java_type : option string) (allow_upgrade : bool)
  : M (FunctionInfo * string * pyval * pyval) :=
  info ← get_config;
  let runtime := default "" (Runtime info) in
  let orig_handler := of_opt (Handler info) in
  let runtime_handler := table_handler runtime in
  when (negb (truthy (of_opt account_id)))
       (raise (UpdateLambdaException msg_account));;
  runtime_handler ←
    (if startswith runtime "java" then
       when (negb (truthy (of_opt java_type)))
            (raise (UpdateLambdaException msg_java));;
       match RUNTIME_CONFIG !! runtime with
       | Some (HString _) => raise AttributeError
       | Some (HDict m) => mret (of_opt (m !! default "" java_type))
       | None => mret PNone
       end
     else mret runtime_handler);
  when (negb allow_upgrade && py_eq orig_handler runtime_handler)
       (raise (UpdateLambdaException msg_installed));;
  when (unsupported runtime)
       (raise (UpdateLambdaException (msg_unsupported runtime)));;
  mret (info, runtime, orig_handler, runtime_handler).

(** Lines 80-101: the layer to attach. *)
Definition _add_new_relic_layers
    (region runtime : string) (layer_arn : option string) : M (list string) :=
  let new_relic_layers : list string := [] in
  if truthy (of_opt layer_arn) then mret [default "" layer_arn]
  else
    let disco_layers := get_layers region runtime in
    when (1 <? length new_relic_layers)
         (print ("Discovered layers for runtime (" +:+ runtime +:+ ")");;
          mapM (λ layer,
                  print (version_arn layer +:+ tab +:+ default "" (Description layer)))
               disco_layers;;
          raise MultipleLayersException);;
    match disco_layers !! 0%nat with
    | None => raise IndexError
    | Some layer => mret [version_arn layer]
    end.

Definition _add_new_relic
    (region function_arn : string) (layer_arn account_id java_type : option string)
    (allow_upgrade : bool) : M (update_kwargs string) :=
  '(info, runtime, orig_handler, runtime_handler) ←
    _add_new_relic_guards account_id java_type allow_upgrade;
  let existing_layers :=
    filter (λ a, _filter_new_relic_layers region a = true)
           (map _map_response_to_arns (default [] (Layers info))) in
  new_relic_layers ← _add_new_relic_layers region runtime layer_arn;
  let variables := match Variables info with
                   | Some _ => InConfig
                   | None => Fresh ∅
                   end in
  variables ← setitem variables "NEW_RELIC_ACCOUNT_ID" (of_opt account_id);
  variables ←
    (if negb (py_eq orig_handler runtime_handler) then
       if startswith runtime "java" then
         setitem variables "NEW_RELIC_GENERIC_HANDLER" orig_handler
       else
         setitem variables "NEW_RELIC_LAMBDA_HANDLER" orig_handler
     else mret variables);
  vars ← contents variables;
  mret {| FunctionName := function_arn;
          kwHandler := runtime_handler;
          kwVariables := vars;
          kwLayers := new_relic_layers ++ existing_layers |}.

Definition msg_handler : string :=
  "New Relic installation (via layers) not auto-detected for the specified function."
  +:+ newline +:+ "Error: Unrecognized handler in deployed function.".
Definition msg_marker : string :=
  "New Relic installation (via layers) not auto-detected for the specified function."
  +:+ newline
  +:+ "Error: Environment variable NEW_RELIC_LAMBDA_HANDLER or NEW_RELIC_GENERIC_HANDLER not found.".

(** Lines 191-193: [for layer_idx, layer_arn in enumerate(layers)] over the
    list it deletes from.  The list iterator holds an index, equal to
    [layer_idx]; each round reads [layers[layer_idx]] from the list as it is
    then, and the loop ends when the index reaches the current length.
    [fuel] bounds the number of rounds. *)
Fixpoint _delete_layers (fuel : nat) (arn_prefix : string) (layer_idx : nat)
    (layers : list Layer) : list Layer :=
  match fuel with
  | O => layers
  | S fuel =>
      match layers !! layer_idx with
      | None => layers
      | Some layer_arn =>
          if startswith (Arn layer_arn) arn_prefix
          then _delete_layers fuel arn_prefix (S layer_idx) (delete layer_idx layers)
          else _delete_layers fuel arn_prefix (S layer_idx) layers
      end
  end.

(** [.get("Environment", {}).get("Variables", {}).get(key)] *)
Definition env_get (info : FunctionInfo) (key : string) : pyval :=
  default PNone (Variables info ≫= λ vars, vars !! key).

Definition _remove_new_relic
    (region function_arn : string) (layer_arn : option string)
  : M (update_kwargs Layer) :=
  info ← get_config;
  let runtime := default "" (Runtime info) in
  let orig_handler := default "" (Handler info) in
  when (unsupported runtime)
       (raise (UpdateLambdaException (msg_unsupported runtime)));;
  when (negb (is_valid_handler runtime orig_handler))
       (raise (UpdateLambdaException msg_handler));;
  let env_handler := env_get info "NEW_RELIC_LAMBDA_HANDLER" in
  let env_alt_handler := env_get info "NEW_RELIC_GENERIC_HANDLER" in
  let env_handler := py_or env_handler env_alt_handler in
  when (negb (truthy env_handler))
       (raise (UpdateLambdaException msg_marker));;
  mapM (λ key, set_Variables (delete key))
       ["NEW_RELIC_LAMBDA_HANDLER"; "NEW_RELIC_GENERIC_HANDLER"; "NEW_RELIC_ACCOUNT_ID"];;
  set_Layers (λ layers,
                _delete_layers (length layers) (get_arn_prefix region) 0 layers);;
  info ← get_config;
  let layers := default [] (Layers info) in
  match Variables info with
  | None => raise KeyError
  | Some vars =>
      mret {| FunctionName := function_arn;
              kwHandler := env_handler;
              kwVariables := vars;
              kwLayers := layers |}
  end.

End Planners.

(** ** An instance of the missing [utils] *)

Module Sample.

(** Modelled from the spec: [utils.RUNTIME_CONFIG] is not among the sources.
    The table has the shape of the spec's RuntimeCatalog: runtime
    ["python3.9"] with a single instrumentation handler and runtime
    ["java11"] with two legal flavors. *)
Definition RUNTIME_CONFIG : gmap string HandlerSpec :=
  {[ "python3.9" := HString "newrelic_lambda_wrapper.handler";
     "nodejs12.x" := HString "newrelic-lambda-wrapper.handler";
     "java11" :=
       HDict {[ "handleRequest" := "com.newrelic.java.HandlerWrapper::handleRequest";
                "handleStreamsRequest" :=
                  "com.newrelic.java.HandlerWrapper::handleStreamsRequest" ]} ]}.

(** Modelled from the spec: [utils.get_arn_prefix] is not among the sources.
    The vendor's region-specific prefix: the ARN of a layer of the vendor's
    account in the region. *)
Definition get_arn_prefix (region : string) : string :=
  "arn:aws:lambda:" +:+ region +:+ ":451483290750".

(** Modelled from the spec: [utils.is_valid_handler] is not among the
    sources.  The handler is recognised when it equals the instrumentation
    handler derived from the runtime alone, any flavor's handler counting. *)
Definition is_valid_handler (runtime handler : string) : bool :=
  match RUNTIME_CONFIG !! runtime with
  | Some (HString s) => String.eqb handler s
  | Some (HDict m) => bool_decide (map_Exists (λ _ v, v = handler) m)
  | None => false
  end.

Definition vendor_layer (name : string) : string :=
  get_arn_prefix "us-east-1" +:+ ":layer:" +:+ name.

(** Layer discovery with no, one and two candidates. *)
Definition candidate (name : string) : LayerInfo :=
  {| LayerVersionArn := Some (vendor_layer name);
     Description := Some "New Relic Layer" |}.
Definition get_layers0 (region runtime : string) : list LayerInfo := [].
Definition get_layers1 (region runtime : string) : list LayerInfo :=
  [candidate "NewRelicPython39:7"].
Definition get_layers2 (region runtime : string) : list LayerInfo :=
  [candidate "NewRelicPython39:7"; candidate "NewRelicPython39X:2"].

Definition world (info : FunctionInfo) : World :=
  {| config := info; stdout := [] |}.

Definition other_layer : string :=
  "arn:aws:lambda:us-east-1:123456789012:layer:shared-utils:4".

(** A python function never instrumented. *)
Definition python_fresh : FunctionInfo :=
  {| Runtime := Some "python3.9";
     Handler := Some "app.handler";
     Layers := None;
     Variables := None |}.

(** A python function with a layer of its own and a variable of its own. *)
Definition python_with_layer : FunctionInfo :=
  {| Runtime := Some "python3.9";
     Handler := Some "app.handler";
     Layers := Some [ {| Arn := other_layer |} ];
     Variables := Some {[ "STAGE" := PStr "prod" ]} |}.

(** An instrumented python function. *)
Definition python_installed : FunctionInfo :=
  {| Runtime := Some "python3.9";
     Handler := Some "newrelic_lambda_wrapper.handler";
     Layers := Some [ {| Arn := vendor_layer "NewRelicPython39:6" |};
                      {| Arn := other_layer |} ];
     Variables := Some {[ "NEW_RELIC_LAMBDA_HANDLER" := PStr "app.handler";
                          "NEW_RELIC_ACCOUNT_ID" := PStr "123" ]} |}.


(** Two vendor layers next to each other, then a layer of the function's
    own. *)
Definition python_two_vendor_layers : FunctionInfo :=
  {| Runtime := Some "python3.9";
     Handler := Some "newrelic_lambda_wrapper.handler";
     Layers := Some [ {| Arn := vendor_layer "NewRelicPython39:6" |};
                      {| Arn := vendor_layer "NewRelicLambdaExtension:3" |};
                      {| Arn := other_layer |} ];
     Variables := Some {[ "NEW_RELIC_LAMBDA_HANDLER" := PStr "app.handler" ]} |}.

(** Both marker variables present, with different values. *)
Definition python_both_markers : FunctionInfo :=
  {| Runtime := Some "python3.9";
     Handler := Some "newrelic_lambda_wrapper.handler";
     Layers := Some [ {| Arn := vendor_layer "NewRelicPython39:6" |} ];
     Variables := Some {[ "NEW_RELIC_LAMBDA_HANDLER" := PStr "app.handler";
                          "NEW_RELIC_GENERIC_HANDLER" := PStr "legacy.entry" ]} |}.

(** A java function never instrumented by the planner, whose environment
    has a [NEW_RELIC_LAMBDA_HANDLER] of its own. *)
Definition java_stale_marker : FunctionInfo :=
  {| Runtime := Some "java11";
     Handler := Some "example.Handler::handleRequest";
     Layers := Some [ {| Arn := other_layer |} ];
     Variables := Some {[ "NEW_RELIC_LAMBDA_HANDLER" := PStr "stale.handler" ]} |}.

(** The planners over this instance, with one discovered candidate. *)
Definition add := _add_new_relic RUNTIME_CONFIG get_arn_prefix get_layers1.
Definition remove := _remove_new_relic RUNTIME_CONFIG get_arn_prefix is_valid_handler.

End Sample.

(** ** Notions used to state the properties *)

(** The exceptions of the error taxonomy: the two exception classes of the
    module.  The built-in exceptions are outside it. *)
Definition is_taxonomy (e : exn) : bool :=
  match e with
  | UpdateLambdaException _ | MultipleLayersException => true
  | IndexError | AttributeError | KeyError => false
  end.

Definition MissingAccountId : exn := UpdateLambdaException msg_account.
Definition FlavorRequired : exn := UpdateLambdaException msg_java.
Definition AlreadyInstalled : exn := UpdateLambdaException msg_installed.
Definition UnsupportedRuntime (runtime : string) : exn :=
  UpdateLambdaException (msg_unsupported runtime).
Definition NotDetected_handler : exn := UpdateLambdaException msg_handler.
Definition NotDetected_marker : exn := UpdateLambdaException msg_marker.
Definition AmbiguousLayerError : exn := MultipleLayersException.

(** The runtime of a configuration, as both planners read it. *)
Definition runtime_of (info : FunctionInfo) : string := default "" (Runtime info).

(** The instrumentation handler of a supported runtime: the table's string,
    or for a ["java"] runtime the string the table gives for the handler
    type.  [None] when the runtime is unsupported, or a java runtime comes
    without a handler type the table knows. *)
Definition handlerFor (RUNTIME_CONFIG : gmap string HandlerSpec)
    (runtime : string) (java_type : option string) : option string :=
  if unsupported RUNTIME_CONFIG runtime then None
  else if startswith runtime "java" then
    match RUNTIME_CONFIG !! runtime, java_type with
    | Some (HDict m), Some t => if String.eqb t "" then None else m !! t
    | _, _ => None
    end
  else
    match RUNTIME_CONFIG !! runtime with
    | Some (HString s) => Some s
    | _ => None
    end.

(** The layer an install attaches: the explicit ARN when one is given, the
    first discovered layer otherwise. *)
Definition chosen_layer (get_layers : string → string → list LayerInfo)
    (region runtime : string) (layer_arn : option string) : option string :=
  if truthy (of_opt layer_arn) then layer_arn
  else version_arn <$> head (get_layers region runtime).

(** Whether an ARN carries the vendor's prefix for the region. *)
Definition vendor (get_arn_prefix : string → string) (region arn : string) : bool :=
  startswith arn (get_arn_prefix region).

(** The presence of a variable in the configuration's environment. *)
Definition env_lookup (info : FunctionInfo) (key : string) : option pyval :=
  Variables info ≫= λ vars, vars !! key.

(** What the index loop of [_remove_new_relic] computes on the part of the
    list not yet visited: a layer that follows a deleted one is kept without
    being looked at. *)
Fixpoint skip_filter (arn_prefix : string) (layers : list Layer) : list Layer :=
  match layers with
  | [] => []
  | layer :: rest =>
      if startswith (Arn layer) arn_prefix then
        match rest with
        | [] => []
        | next :: rest' => next :: skip_filter arn_prefix rest'
        end
      else layer :: skip_filter arn_prefix rest
  end.

(** Modelled from the spec: [update_function_configuration] is the
    provider's call, not among the sources.  The caller applies the patch via
    the provider's update API: the function keeps its runtime and takes the
    handler, the environment variables and the layers of the patch. *)
Definition update_function_configuration
    (info : FunctionInfo) (kw : update_kwargs string) : FunctionInfo :=
  {| Runtime := Runtime info;
     Handler := match kwHandler kw with
                | PStr h => Some h
                | _ => Handler info
                end;
     Layers := Some (map Build_Layer (kwLayers kw));
     Variables := Some (kwVariables kw) |}.

(** What the writes of lines 116-127 leave in the variables dictionary. *)
Definition installed_variables (vars : gmap string pyval)
    (account_id : option string) (runtime : string)
    (orig_handler runtime_handler : pyval) : gmap string pyval :=
  let vars := <["NEW_RELIC_ACCOUNT_ID" := of_opt account_id]> vars in
  if py_eq orig_handler runtime_handler then vars
  else if startswith runtime "java"
       then <["NEW_RELIC_GENERIC_HANDLER" := orig_handler]> vars
       else <["NEW_RELIC_LAMBDA_HANDLER" := orig_handler]> vars.

(** The caller's objects with new contents for the variables dictionary
    and the layer list, where the configuration has them. *)
Definition with_contents (w : World)
    (fv : gmap string pyval → gmap string pyval)
    (fl : list Layer → list Layer) : World :=
  {| config := {| Runtime := Runtime (config w);
                  Handler := Handler (config w);
                  Layers := fl <$> Layers (config w);
                  Variables := fv <$> Variables (config w) |};
     stdout := stdout w |}.

(** What the three deletions of lines 179-187 leave. *)
Definition uninstalled_variables (vars : gmap string pyval) : gmap string pyval :=
  delete "NEW_RELIC_ACCOUNT_ID"
    (delete "NEW_RELIC_GENERIC_HANDLER" (delete "NEW_RELIC_LAMBDA_HANDLER" vars)).

(** ** Listing the functions of a region *)

(** One entry of a function's ["Layers"] as [list_functions] reads it, with
    [layer.get("Arn", "")]: the ARN may be missing. *)
Record LayerRef : Type := { ref_Arn : option string }.

(** One function of a ["Functions"] page: its name, its layers, and the
    key ["-x-new-relic-enabled"], which the provider's answer does not have
    and [list_functions] may add. *)
Record FunctionEntry : Type := {
  FunctionArn : string;
  entry_Layers : option (list LayerRef);
  x_new_relic_enabled : option bool
}.

(** How a generator ends: by running out, or in an exception. *)
Inductive ending : Type :=
| StopIteration
| Raised (e : exn).

(** What one round of the loop over the functions does. *)
Inductive emitted : Type :=
| Yield (f : FunctionEntry)
| Pass
| Throw (e : exn).

Section Listing.

Variable get_arn_prefix : string → string.

(** [f["-x-new-relic-enabled"] = True] *)
Definition set_enabled (f : FunctionEntry) : FunctionEntry :=
  {| FunctionArn := FunctionArn f;
     entry_Layers := entry_Layers f;
     x_new_relic_enabled := Some true |}.

(** Lines 15-17: the loop over the layers of one function. *)
Definition mark_enabled (region : string) (f : FunctionEntry) : FunctionEntry :=
  foldl (λ f layer,
           if startswith (default "" (ref_Arn layer)) (get_arn_prefix region)
           then set_enabled f else f)
        f (default [] (entry_Layers f)).

(** [f["-x-new-relic-enabled"]] *)
Definition enabled_item (f : FunctionEntry) : result bool :=
  match x_new_relic_enabled f with
  | Some b => Ok b
  | None => Raise KeyError
  end.

(** Lines 18-23: the [if]/[elif] chain, each [and] reading the key only
    when the comparison before it holds. *)
Definition select (all : bool) (filter_choice : option string) (f : FunctionEntry)
  : emitted :=
  if all then Yield f
  else
    match (if bool_decide (filter_choice = Some "installed")
           then enabled_item f else Ok false) with
    | Raise e => Throw e
    | Ok true => Yield f
    | Ok false =>
        match (if bool_decide (filter_choice = Some "not_installed")
               then match enabled_item f with
                    | Ok b => Ok (negb b)
                    | Raise e => Raise e
                    end
               else Ok false) with
        | Raise e => Throw e
        | Ok true => Yield f
        | Ok false => Pass
        end
    end.

(** Lines 14-23 over the functions of one page: what is yielded, and how
    the page ends. *)
Fixpoint list_functions_page (all : bool) (filter_choice : option string)
    (region : string) (funcs : list FunctionEntry) : list FunctionEntry * ending :=
  match funcs with
  | [] => ([], StopIteration)
  | f :: funcs =>
      match select all filter_choice (mark_enabled region f) with
      | Yield f' =>
          let '(yielded, e) := list_functions_page all filter_choice region funcs in
          (f' :: yielded, e)
      | Pass => list_functions_page all filter_choice region funcs
      | Throw e => ([], Raised e)
      end
  end.

(** Lines 12-13 over the pages: [func_resp.get("Functions", [])]. *)
Fixpoint list_functions_pages (all : bool) (filter_choice : option string)
    (region : string) (pages : list (option (list FunctionEntry)))
  : list FunctionEntry * ending :=
  match pages with
  | [] => ([], StopIteration)
  | func_resp :: pages =>
      match list_functions_page all filter_choice region (default [] func_resp) with
      | (yielded, StopIteration) =>
          let '(more, e) := list_functions_pages all filter_choice region pages in
          (yielded ++ more, e)
      | (yielded, Raised e) => (yielded, Raised e)
      end
  end.

(** [list_functions], over the pages [pager.paginate()] gives: the
    functions the generator yields, in order, and how it ends. *)
Definition list_functions (region : string) (quiet : bool)
    (filter_choice : option string) (pages : list (option (list FunctionEntry)))
  : list FunctionEntry * ending :=
  let all := bool_decide (filter_choice = Some "all")
             || negb (truthy (of_opt filter_choice)) in
  list_functions_pages all filter_choice region pages.

(** Whether a function has a layer with the vendor's prefix. *)
Definition has_vendor_layer (region : string) (f : FunctionEntry) : bool :=
  existsb (λ layer, startswith (default "" (ref_Arn layer)) (get_arn_prefix region))
          (default [] (entry_Layers f)).

End Listing.

(** All the functions of the pages, in order. *)
Definition functions_of (pages : list (option (list FunctionEntry)))
  : list FunctionEntry :=
  concat (map (default []) pages).

(** The longest initial part of a list on which a test holds. *)
Fixpoint leading {A} (test : A → bool) (l : list A) : list A :=
  match l with
  | [] => []
  | x :: l => if test x then x :: leading test l else []
  end.

(** ** The linked accounts and integrations of the monitoring account *)

Module GQL.

(** The fields the lookups read of a linked account and of an integration
    in the answers of the GraphQL queries. *)
Record LinkedAccount : Type := { la_id : Z; la_name : string }.
Record Service : Type := { slug : string; isEnabled : bool }.
Record Integration : Type := { int_id : Z; int_name : string; service : Service }.

Section Client.

(** The answers of the backend: what [get_linked_accounts] returns, and the
    ["integrations"] of a linked account. *)
Variable get_linked_accounts : list LinkedAccount.
Variable integrations_of : Z → list Integration.

(** [next((a for a in accounts if a["name"] == account_name), None)] *)
Definition get_linked_account_by_name (account_name : string) : option LinkedAccount :=
  let accounts := get_linked_accounts in
  List.find (λ a, String.eqb (la_name a) account_name) accounts.

(** [next((i for i in integrations if i["service"]["slug"] == service_slug), None)] *)
Definition get_integration_by_service_slug (linked_account_id : Z)
    (service_slug : string) : option Integration :=
  let integrations := integrations_of linked_account_id in
  List.find (λ i, String.eqb (slug (service i)) service_slug) integrations.

(** [integration and integration["service"]["isEnabled"]]: [None] when
    there is no integration, the flag otherwise (an integration is a
    non-empty dictionary, so it is truthy). *)
Definition is_integration_enabled (linked_account_id : Z) (service_slug : string)
  : option bool :=
  let integration := get_integration_by_service_slug linked_account_id service_slug in
  match integration with
  | None => None
  | Some i => Some (isEnabled (service i))
  end.

End Client.

End GQL.

(** ** More sample data *)

Module Cases.

(** A function deployed as a container image: no runtime, no handler. *)
Definition container_image : FunctionInfo :=
  {| Runtime := None; Handler := None; Layers := None; Variables := None |}.

(** A function on a runtime the sample table does not have. *)
Definition ruby_function : FunctionInfo :=
  {| Runtime := Some "ruby2.5";
     Handler := Some "app.handler";
     Layers := None;
     Variables := None |}.

(** A java function never instrumented. *)
Definition java_fresh : FunctionInfo :=
  {| Runtime := Some "java11";
     Handler := Some "example.Handler::handleRequest";
     Layers := None;
     Variables := None |}.


Definition vendor_ref : LayerRef :=
  {| ref_Arn := Some (Sample.vendor_layer "NewRelicPython39:6") |}.
Definition other_ref : LayerRef := {| ref_Arn := Some Sample.other_layer |}.

Definition fn_a : FunctionEntry :=
  {| FunctionArn := "fn-a"; entry_Layers := Some [vendor_ref];
     x_new_relic_enabled := None |}.
Definition fn_b : FunctionEntry :=
  {| FunctionArn := "fn-b"; entry_Layers := Some [other_ref];
     x_new_relic_enabled := None |}.
Definition fn_c : FunctionEntry :=
  {| FunctionArn := "fn-c"; entry_Layers := Some [other_ref; vendor_ref];
     x_new_relic_enabled := None |}.

(** Three functions over three pages, the second page without
    ["Functions"]. *)
Definition pages : list (option (list FunctionEntry)) :=
  [Some [fn_a]; None; Some [fn_b; fn_c]].

Definition accounts : list GQL.LinkedAccount :=
  [ {| GQL.la_id := 1; GQL.la_name := "staging" |};
    {| GQL.la_id := 2; GQL.la_name := "prod" |};
    {| GQL.la_id := 3; GQL.la_name := "prod" |} ].

Definition integrations (linked_account_id : Z) : list GQL.Integration :=
  [ {| GQL.int_id := 10; GQL.int_name := "S3";
       GQL.service := {| GQL.slug := "s3"; GQL.isEnabled := true |} |};
    {| GQL.int_id := 11; GQL.int_name := "Lambda";
       GQL.service := {| GQL.slug := "lambda"; GQL.isEnabled := false |} |};
    {| GQL.int_id := 12; GQL.int_name := "Lambda again";
       GQL.service := {| GQL.slug := "lambda"; GQL.isEnabled := true |} |} ].

End Cases.

(** ** The spec's notion of an instrumented function *)


(** ** Properties *)

Section Properties.

Variable RUNTIME_CONFIG : gmap string HandlerSpec.
Variable get_arn_prefix : string → string.
Variable get_layers : string → string → list LayerInfo.
Variable is_valid_handler : string → string → bool.

Abbreviation guards := (_add_new_relic_guards RUNTIME_CONFIG).
Abbreviation add_layers := (_add_new_relic_layers get_layers).
Abbreviation add := (_add_new_relic RUNTIME_CONFIG get_arn_prefix get_layers).
Abbreviation remove := (_remove_new_relic RUNTIME_CONFIG get_arn_prefix is_valid_handler).

Ltac run :=
  unfold mbind, M_bind, mret, M_ret, when, raise, get_config; simpl.

Lemma py_eq_true x y : py_eq x y = true ↔ x = y.
Proof. unfold py_eq. apply bool_decide_eq_true. Qed.

Lemma py_eq_false x y : py_eq x y = false ↔ x ≠ y.
Proof. unfold py_eq. apply bool_decide_eq_false. Qed.

Ltac cases :=
  repeat match goal with
    | |- context [if ?b then _ else _] =>
        lazymatch b with
        | context [if _ then _ else _] => fail
        | context [match _ with _ => _ end] => fail
        | _ => destruct b eqn:?; simpl
        end
    | |- context [match ?x with Some _ => _ | None => _ end] =>
        lazymatch x with
        | context [if _ then _ else _] => fail
        | _ => destruct x eqn:?; simpl
        end
    | |- context [match ?x with HString _ => _ | HDict _ => _ end] =>
        destruct x eqn:?; simpl
    end.

(** The guards read the configuration and never write. *)
Lemma guards_state account_id java_type allow_upgrade w :
  snd (guards account_id java_type allow_upgrade w) = w.
Proof.
  unfold _add_new_relic_guards. run. cases; reflexivity.
Qed.

Lemma guards_raise account_id java_type allow_upgrade w e :
  fst (guards account_id java_type allow_upgrade w) = Raise e →
  (∃ msg, e = UpdateLambdaException msg) ∨ e = AttributeError.
Proof.
  unfold _add_new_relic_guards. run. cases; intros; simplify_eq; eauto.
Qed.

Lemma guards_ok account_id java_type allow_upgrade w x :
  fst (guards account_id java_type allow_upgrade w) = Ok x →
  let runtime := runtime_of (config w) in
  let runtime_handler :=
    if startswith runtime "java" then
      match RUNTIME_CONFIG !! runtime with
      | Some (HDict m) => of_opt (m !! default "" java_type)
      | _ => PNone
      end
    else table_handler RUNTIME_CONFIG runtime in
  x = (config w, runtime, of_opt (Handler (config w)), runtime_handler) ∧
  truthy (of_opt account_id) = true ∧
  unsupported RUNTIME_CONFIG runtime = false ∧
  (allow_upgrade = false → of_opt (Handler (config w)) ≠ runtime_handler) ∧
  (startswith runtime "java" = true → truthy (of_opt java_type) = true).
Proof.
  unfold _add_new_relic_guards, runtime_of. run.
  cases; intros; simplify_eq; repeat split; auto; try discriminate;
    first [ by apply negb_false_iff
          | by (intros _; apply negb_false_iff)
          | intros ->; simpl in *; by apply py_eq_false ].
Qed.

(** The layer choice neither writes nor prints: the test that guards the
    listing reads the length of [new_relic_layers], which is still empty. *)
Lemma add_layers_run region runtime layer_arn w :
  add_layers region runtime layer_arn w =
  (match chosen_layer get_layers region runtime layer_arn with
   | Some a => Ok [a]
   | None => Raise IndexError
   end, w).
Proof.
  unfold _add_new_relic_layers, chosen_layer. run.
  destruct (truthy (of_opt layer_arn)) eqn:Hl.
  - destruct layer_arn; [reflexivity | discriminate].
  - destruct (get_layers region runtime); reflexivity.
Qed.

(** A run of the install planner: the guards, the layer choice, then the
    writes into the shared variables dictionary and the patch. *)
Lemma add_unfold region function_arn layer_arn account_id java_type allow_upgrade w :
  add region function_arn layer_arn account_id java_type allow_upgrade w =
  match fst (guards account_id java_type allow_upgrade w) with
  | Raise e => (Raise e, w)
  | Ok (info, runtime, orig_handler, runtime_handler) =>
      match chosen_layer get_layers region runtime layer_arn with
      | None => (Raise IndexError, w)
      | Some a =>
          let fv vars :=
            installed_variables vars account_id runtime orig_handler runtime_handler in
          (Ok {| FunctionName := function_arn;
                 kwHandler := runtime_handler;
                 kwVariables := fv (default ∅ (Variables info));
                 kwLayers :=
                   a :: filter (λ a, _filter_new_relic_layers get_arn_prefix region a = true)
                               (map _map_response_to_arns (default [] (Layers info))) |},
           with_contents w fv id)
      end
  end.
Proof.
  pose proof (guards_state account_id java_type allow_upgrade w) as Hst.
  unfold _add_new_relic. unfold mbind at 1. unfold M_bind at 1.
  destruct (guards account_id java_type allow_upgrade w) as [[x|e] w1] eqn:Hg;
    simpl in Hst; subst w1; simpl; [|reflexivity].
  pose proof (guards_ok account_id java_type allow_upgrade w x) as Hok.
  rewrite Hg in Hok. destruct (Hok eq_refl) as (-> & _). clear Hok.
  unfold mbind at 1. unfold M_bind at 1. rewrite add_layers_run.
  destruct (chosen_layer _ _ _ _) as [a|]; [|reflexivity].
  unfold installed_variables, with_contents, setitem, contents, set_Variables. run.
  clear Hg.
  destruct w as [[rt h [ls|] [vars|]] out]; simpl;
    destruct (py_eq _ _); simpl; try destruct (startswith _ "java"); simpl;
    reflexivity.
Qed.

(** *** The deletion loop *)

Lemma _delete_layers_ge fuel p idx (layers : list Layer) :
  length layers ≤ idx → _delete_layers fuel p idx layers = layers.
Proof.
  intros Hlen. destruct fuel as [|fuel]; simpl; [reflexivity|].
  by rewrite lookup_ge_None_2.
Qed.

Lemma delete_middle (pre : list Layer) x suf :
  delete (length pre) (pre ++ x :: suf) = pre ++ suf.
Proof. induction pre as [|y pre IH]; simpl; [reflexivity | by f_equal]. Qed.

(** With fuel for every position still to visit, the loop returns the
    visited part followed by [skip_filter] of the rest. *)
Lemma _delete_layers_skip fuel p : ∀ pre suf : list Layer,
  length suf ≤ fuel →
  _delete_layers fuel p (length pre) (pre ++ suf) = pre ++ skip_filter p suf.
Proof.
  induction fuel as [|fuel IH]; intros pre suf Hlen.
  - destruct suf; [reflexivity | simpl in Hlen; lia].
  - destruct suf as [|x rest]; simpl.
    + by rewrite lookup_ge_None_2 by (rewrite length_app; simpl; lia).
    + rewrite lookup_app_r, Nat.sub_diag by lia. simpl in *.
      destruct (startswith (Arn x) p).
      * rewrite delete_middle. destruct rest as [|y rest'].
        -- apply _delete_layers_ge. rewrite length_app. simpl. lia.
        -- replace (S (length pre)) with (length (pre ++ [y]))
             by (rewrite length_app; simpl; lia).
           replace (pre ++ y :: rest') with ((pre ++ [y]) ++ rest')
             by (by rewrite <- app_assoc).
           rewrite IH by (simpl in Hlen; lia). by rewrite <- app_assoc.
      * replace (S (length pre)) with (length (pre ++ [x]))
          by (rewrite length_app; simpl; lia).
        replace (pre ++ x :: rest) with ((pre ++ [x]) ++ rest)
          by (by rewrite <- app_assoc).
        rewrite IH by lia. by rewrite <- app_assoc.
Qed.

(** The fuel [_remove_new_relic] gives the loop is enough, and so is any
    larger amount: the loop ends because the index reaches the length. *)
Lemma _delete_layers_total fuel p (layers : list Layer) :
  length layers ≤ fuel →
  _delete_layers fuel p 0 layers = skip_filter p layers.
Proof. intros Hlen. by apply (_delete_layers_skip fuel p []). Qed.

(** The loop keeps a list with no vendor layer as it is. *)
Lemma skip_filter_none p (layers : list Layer) :
  Forall (λ l, startswith (Arn l) p = false) layers →
  skip_filter p layers = layers.
Proof.
  induction 1 as [|x rest Hx _ IH]; simpl; [reflexivity|].
  rewrite Hx. by f_equal.
Qed.

(** The loop never drops a layer without the prefix: what it gets wrong
    is only on the side of the layers it should delete. *)
Lemma skip_filter_keeps_others p (layers : list Layer) :
  filter (λ l, startswith (Arn l) p = false) (skip_filter p layers) =
  filter (λ l, startswith (Arn l) p = false) layers.
Proof.
  remember (length layers) as n eqn:Hn.
  assert (Hle : length layers ≤ n) by lia. clear Hn.
  revert layers Hle. induction n as [|n IH]; intros layers Hle.
  - destruct layers; [reflexivity | simpl in Hle; lia].
  - destruct layers as [|x rest]; [reflexivity|]. simpl in *.
    destruct (startswith (Arn x) p) eqn:Hx.
    + rewrite (filter_cons_False _ x) by (rewrite Hx; discriminate).
      destruct rest as [|y rest']; [reflexivity|].
      rewrite !filter_cons. rewrite IH by (simpl in Hle; lia). reflexivity.
    + rewrite !filter_cons. rewrite IH by lia. reflexivity.
Qed.

(** *** A run of the uninstall planner *)

Lemma remove_unfold region function_arn layer_arn w :
  let info := config w in
  let runtime := runtime_of info in
  let env_handler :=
    py_or (env_get info "NEW_RELIC_LAMBDA_HANDLER")
          (env_get info "NEW_RELIC_GENERIC_HANDLER") in
  remove region function_arn layer_arn w =
  if unsupported RUNTIME_CONFIG runtime then (Raise (UnsupportedRuntime runtime), w)
  else if is_valid_handler runtime (default "" (Handler info)) then
    if truthy env_handler then
      (Ok {| FunctionName := function_arn;
             kwHandler := env_handler;
             kwVariables := uninstalled_variables (default ∅ (Variables info));
             kwLayers := skip_filter (get_arn_prefix region) (default [] (Layers info)) |},
       with_contents w uninstalled_variables (skip_filter (get_arn_prefix region)))
    else (Raise NotDetected_marker, w)
  else (Raise NotDetected_handler, w).
Proof.
  unfold _remove_new_relic, runtime_of, UnsupportedRuntime, NotDetected_marker,
    NotDetected_handler. run.
  destruct (unsupported _ _); simpl; [reflexivity|].
  destruct (is_valid_handler _ _); simpl; [|reflexivity].
  destruct (truthy (py_or _ _)) eqn:Hm; simpl; [|reflexivity].
  unfold with_contents, uninstalled_variables.
  destruct w as [[rt h ls [vars|]] out]; simpl in *.
  - destruct ls as [ls|]; simpl; [|reflexivity].
    by rewrite _delete_layers_total.
  - discriminate.
Qed.

(** *** When the guards pass *)

Lemma handlerFor_supported runtime java_type h :
  handlerFor RUNTIME_CONFIG runtime java_type = Some h →
  unsupported RUNTIME_CONFIG runtime = false.
Proof. unfold handlerFor. by destruct (unsupported _ _). Qed.

Lemma handlerFor_java_type runtime java_type h :
  handlerFor RUNTIME_CONFIG runtime java_type = Some h →
  startswith runtime "java" = true →
  truthy (of_opt java_type) = true.
Proof.
  unfold handlerFor. destruct (unsupported _ _); [done|]. intros H Hj.
  rewrite Hj in H. destruct (RUNTIME_CONFIG !! runtime) as [[?|m]|]; try done.
  destruct java_type as [t|]; [|done]. simpl. by destruct (String.eqb t "").
Qed.

(** The handler the guards compute is the instrumentation handler. *)
Lemma handlerFor_runtime_handler runtime java_type h :
  handlerFor RUNTIME_CONFIG runtime java_type = Some h →
  (if startswith runtime "java" then
     match RUNTIME_CONFIG !! runtime with
     | Some (HDict m) => of_opt (m !! default "" java_type)
     | _ => PNone
     end
   else table_handler RUNTIME_CONFIG runtime) = PStr h.
Proof.
  unfold handlerFor, table_handler. destruct (unsupported _ _); [done|].
  destruct (startswith runtime "java");
    destruct (RUNTIME_CONFIG !! runtime) as [[?|m]|]; try done.
  - destruct java_type as [t|]; [|done]. simpl.
    destruct (String.eqb t ""); [done|]. by intros ->.
  - by intros [= ->].
Qed.

Lemma guards_pass account_id java_type allow_upgrade w h :
  truthy (of_opt account_id) = true →
  handlerFor RUNTIME_CONFIG (runtime_of (config w)) java_type = Some h →
  (allow_upgrade = false → Handler (config w) ≠ Some h) →
  fst (guards account_id java_type allow_upgrade w) =
  Ok (config w, runtime_of (config w), of_opt (Handler (config w)), PStr h).
Proof.
  intros Hacc Hh Hup.
  pose proof (handlerFor_supported _ _ _ Hh) as Hsup.
  pose proof (handlerFor_java_type _ _ _ Hh) as Hjt.
  pose proof (handlerFor_runtime_handler _ _ _ Hh) as Hrh.
  unfold _add_new_relic_guards, table_handler, runtime_of in *. run.
  rewrite Hacc. simpl.
  assert (Hneq : negb allow_upgrade && py_eq (of_opt (Handler (config w))) (PStr h) = false).
  { destruct allow_upgrade; [done|]. simpl. apply py_eq_false.
    intros Heq. apply Hup; [done|]. by destruct (Handler (config w)); simplify_eq/=. }
  destruct (startswith _ "java").
  - rewrite Hjt by done. simpl.
    destruct (RUNTIME_CONFIG !! _) as [[?|m]|]; try done; simpl; simpl in Hrh.
    rewrite Hrh, Hneq. simpl. by rewrite Hsup.
  - simpl. rewrite Hrh, Hneq. simpl. by rewrite Hsup.
Qed.

Lemma add_ok_inv region function_arn layer_arn account_id java_type allow_upgrade w kw :
  fst (add region function_arn layer_arn account_id java_type allow_upgrade w) = Ok kw →
  ∃ runtime_handler new,
    fst (guards account_id java_type allow_upgrade w) =
      Ok (config w, runtime_of (config w), of_opt (Handler (config w)), runtime_handler) ∧
    chosen_layer get_layers region (runtime_of (config w)) layer_arn = Some new ∧
    kw = {| FunctionName := function_arn;
            kwHandler := runtime_handler;
            kwVariables :=
              installed_variables (default ∅ (Variables (config w))) account_id
                (runtime_of (config w)) (of_opt (Handler (config w))) runtime_handler;
            kwLayers :=
              new :: filter (λ a, _filter_new_relic_layers get_arn_prefix region a = true)
                            (map _map_response_to_arns (default [] (Layers (config w)))) |}.
Proof.
  rewrite add_unfold.
  destruct (fst (guards _ _ _ w)) as [x|e] eqn:Hg; [|done].
  destruct (guards_ok _ _ _ _ _ Hg) as (-> & _).
  destruct (chosen_layer _ _ _ _) as [new|]; [|done].
  simpl. intros [= <-]. eauto.
Qed.

Lemma filter_not_vendor region (arns : list string) :
  filter (λ a, _filter_new_relic_layers get_arn_prefix region a = true) arns =
  filter (λ a, vendor get_arn_prefix region a = false) arns.
Proof.
  apply list_filter_iff. intros a. unfold _filter_new_relic_layers, vendor.
  by destruct (startswith _ _).
Qed.

(** [MultipleLayersException] is never raised: the test of line 86 is on
    [new_relic_layers], empty at that point, not on [disco_layers]. *)
Lemma add_never_ambiguous
    region function_arn layer_arn account_id java_type allow_upgrade w :
  fst (add region function_arn layer_arn account_id java_type allow_upgrade w)
    ≠ Raise MultipleLayersException.
Proof.
  rewrite add_unfold.
  destruct (fst (guards _ _ _ w)) as [[[[info runtime] orig] rh]|e] eqn:Hg.
  - by destruct (chosen_layer _ _ _ _).
  - simpl. intros [= ->]. by destruct (guards_raise _ _ _ _ _ Hg) as [[msg ?]|?].
Qed.

(** *** The claims about the install planner *)

(** C6: on every successful call of [_add_new_relic] the output layer list
    is the new layer (the explicit ARN, or the first discovered one)
    followed by every input layer whose ARN does not start with the vendor's
    prefix for the region, in the input's order; so no such layer of the
    input is dropped, and an output layer with the vendor's prefix comes
    before every output layer without it. *)
Theorem add_puts_new_layer_before_preserved
    region function_arn layer_arn account_id java_type allow_upgrade w kw :
  fst (add region function_arn layer_arn account_id java_type allow_upgrade w) = Ok kw →
  let input := map Arn (default [] (Layers (config w))) in
  let preserved := filter (λ a, vendor get_arn_prefix region a = false) input in
  (∃ new, chosen_layer get_layers region (runtime_of (config w)) layer_arn = Some new ∧
          kwLayers kw = [new] ++ preserved) ∧
  (∀ a, a ∈ input → vendor get_arn_prefix region a = false → a ∈ kwLayers kw) ∧
  (∀ i j a b, kwLayers kw !! i = Some a → kwLayers kw !! j = Some b →
              vendor get_arn_prefix region a = true →
              vendor get_arn_prefix region b = false → i < j).
Proof.
  intros Hok. destruct (add_ok_inv _ _ _ _ _ _ _ _ Hok) as (rh & new & _ & Hnew & ->).
  simpl. rewrite filter_not_vendor.
  change (map _map_response_to_arns) with (map Arn).
  split; [eauto|]. split.
  - intros a Hin Hv. apply list_elem_of_further, list_elem_of_filter. done.
  - intros i j a b Hi Hj Ha Hb.
    destruct i as [|i]; simpl in Hi.
    + destruct j as [|j]; [|lia]. simpl in Hj. congruence.
    + apply list_elem_of_lookup_2, list_elem_of_filter in Hi as [Hi _]. congruence.
Qed.


Lemma guards_installed account_id java_type w h :
  truthy (of_opt account_id) = true →
  handlerFor RUNTIME_CONFIG (runtime_of (config w)) java_type = Some h →
  Handler (config w) = Some h →
  fst (guards account_id java_type false w) = Raise AlreadyInstalled.
Proof.
  intros Hacc Hh Hcur.
  pose proof (handlerFor_java_type _ _ _ Hh) as Hjt.
  pose proof (handlerFor_runtime_handler _ _ _ Hh) as Hrh.
  unfold _add_new_relic_guards, table_handler, runtime_of in *. run.
  rewrite Hacc, Hcur. simpl.
  assert (Heq : py_eq (PStr h) (PStr h) = true) by by apply py_eq_true.
  destruct (startswith _ "java").
  - rewrite Hjt by done. simpl.
    destruct (RUNTIME_CONFIG !! _) as [[?|m]|]; try done; simpl; simpl in Hrh.
    by rewrite Hrh, Heq.
  - simpl. by rewrite Hrh, Heq.
Qed.

Lemma chosen_layer_some region runtime layer_arn :
  truthy (of_opt layer_arn) = true ∨ get_layers region runtime ≠ [] →
  is_Some (chosen_layer get_layers region runtime layer_arn).
Proof.
  unfold chosen_layer. intros [Hl|Hd].
  - rewrite Hl. destruct layer_arn; [eauto | done].
  - destruct (truthy (of_opt layer_arn)) eqn:Hl.
    + destruct layer_arn; [eauto | done].
    + destruct (get_layers region runtime); [done | simpl; eauto].
Qed.

(** C4: when the handler of the configuration already is the runtime's
    instrumentation handler (and the call carries an account id),
    [_add_new_relic] with [allow_upgrade] false raises the
    already-installed error; with [allow_upgrade] true, and a layer to
    attach (an explicit ARN, or a discovered candidate), it returns a patch
    whose two original-handler marker variables are exactly as the input
    had them, present or absent. *)
Theorem add_upgrade_guard_keeps_marker
    region function_arn layer_arn account_id java_type w h :
  Handler (config w) = Some h →
  handlerFor RUNTIME_CONFIG (runtime_of (config w)) java_type = Some h →
  truthy (of_opt account_id) = true →
  add region function_arn layer_arn account_id java_type false w
    = (Raise AlreadyInstalled, w) ∧
  (truthy (of_opt layer_arn) = true ∨
   get_layers region (runtime_of (config w)) ≠ [] →
   ∃ kw,
     fst (add region function_arn layer_arn account_id java_type true w) = Ok kw ∧
     kwHandler kw = PStr h ∧
     kwVariables kw !! "NEW_RELIC_LAMBDA_HANDLER"
       = env_lookup (config w) "NEW_RELIC_LAMBDA_HANDLER" ∧
     kwVariables kw !! "NEW_RELIC_GENERIC_HANDLER"
       = env_lookup (config w) "NEW_RELIC_GENERIC_HANDLER").
Proof.
  intros Hcur Hh Hacc. split.
  - rewrite add_unfold. by rewrite (guards_installed _ _ _ h).
  - intros Hlayer. apply chosen_layer_some in Hlayer as [new Hnew].
    rewrite add_unfold.
    rewrite (guards_pass account_id java_type true w h); [|done|done|done].
    rewrite Hnew. eexists; split; [reflexivity|]. simpl.
    split; [done|]. unfold installed_variables, env_lookup. rewrite Hcur. simpl.
    replace (py_eq (PStr h) (PStr h)) with true by (symmetry; by apply py_eq_true).
    rewrite !lookup_insert_ne by done.
    by destruct (Variables (config w)).
Qed.

(** C10: with no explicit layer ARN and an empty discovery the call returns
    no patch; once the guards have passed it ends in [IndexError], raised
    by [disco_layers[0]], which is not an error of the taxonomy, and the
    configuration is as it was. *)
Theorem add_empty_discovery_index_error
    region function_arn layer_arn account_id java_type allow_upgrade w :
  truthy (of_opt layer_arn) = false →
  get_layers region (runtime_of (config w)) = [] →
  (∀ kw, fst (add region function_arn layer_arn account_id java_type allow_upgrade w)
         ≠ Ok kw) ∧
  (∀ x, fst (guards account_id java_type allow_upgrade w) = Ok x →
        add region function_arn layer_arn account_id java_type allow_upgrade w
          = (Raise IndexError, w)) ∧
  is_taxonomy IndexError = false.
Proof.
  intros Hl Hd.
  assert (Hnone : chosen_layer get_layers region (runtime_of (config w)) layer_arn = None).
  { unfold chosen_layer. by rewrite Hl, Hd. }
  split; [|split; [|done]].
  - intros kw Hok. apply add_ok_inv in Hok as (? & ? & _ & Hsome & _). congruence.
  - intros x Hg. rewrite add_unfold, Hg.
    destruct (guards_ok _ _ _ _ _ Hg) as (-> & _). by rewrite Hnone.
Qed.

(** *** The claims about the uninstall planner *)

Lemma env_get_lookup info key : env_get info key = default PNone (env_lookup info key).
Proof. reflexivity. Qed.

Lemma truthy_py_or x y : truthy (py_or x y) = truthy x || truthy y.
Proof. unfold py_or. by destruct (truthy x) eqn:Hx; [rewrite Hx|]. Qed.



(** C9: a call of either planner that fails with an error of the taxonomy
    leaves the configuration (handler, environment variables, layer list) as
    it was: every such error is raised before the first write into the
    shared objects. *)
Theorem planners_fail_before_writing
    region function_arn layer_arn account_id java_type allow_upgrade w :
  (∀ e,
     fst (add region function_arn layer_arn account_id java_type allow_upgrade w) = Raise e →
     is_taxonomy e = true →
     config (snd (add region function_arn layer_arn account_id java_type allow_upgrade w))
       = config w) ∧
  (∀ e,
     fst (remove region function_arn layer_arn w) = Raise e →
     is_taxonomy e = true →
     config (snd (remove region function_arn layer_arn w)) = config w).
Proof.
  split; intros e.
  - rewrite add_unfold.
    destruct (fst (guards _ _ _ w)) as [[[[info runtime] orig] rh]|e'] eqn:Hg; [|done].
    by destruct (chosen_layer _ _ _ _).
  - rewrite remove_unfold. simpl.
    destruct (unsupported _ _); [done|].
    destruct (is_valid_handler _ _); [|done].
    by destruct (truthy _).
Qed.

(** C8, as the code has it: when both marker variables are present, the
    restored handler is the value of the single-entry key
    [NEW_RELIC_LAMBDA_HANDLER] whenever that value is non-empty; the value of
    the multi-entry key [NEW_RELIC_GENERIC_HANDLER] is the fallback, taken
    when the single-entry value is empty. *)
Theorem remove_reads_single_entry_marker_first
    region function_arn layer_arn w v_single v_multi :
  unsupported RUNTIME_CONFIG (runtime_of (config w)) = false →
  is_valid_handler (runtime_of (config w)) (default "" (Handler (config w))) = true →
  env_lookup (config w) "NEW_RELIC_LAMBDA_HANDLER" = Some v_single →
  env_lookup (config w) "NEW_RELIC_GENERIC_HANDLER" = Some v_multi →
  truthy v_single || truthy v_multi = true →
  ∃ kw, fst (remove region function_arn layer_arn w) = Ok kw ∧
        kwHandler kw = if truthy v_single then v_single else v_multi.
Proof.
  intros Hsup Hvalid H1 H2 Ht.
  rewrite remove_unfold. simpl. rewrite Hsup, Hvalid, !env_get_lookup, H1, H2.
  unfold py_or. simpl.
  destruct (truthy v_single) eqn:Hs; simpl in *.
  - rewrite Hs. eauto.
  - rewrite Ht. eauto.
Qed.

(** *** Install, then uninstall *)

Lemma remove_ok region function_arn layer_arn w v :
  unsupported RUNTIME_CONFIG (runtime_of (config w)) = false →
  is_valid_handler (runtime_of (config w)) (default "" (Handler (config w))) = true →
  py_or (env_get (config w) "NEW_RELIC_LAMBDA_HANDLER")
        (env_get (config w) "NEW_RELIC_GENERIC_HANDLER") = v →
  truthy v = true →
  remove region function_arn layer_arn w =
  (Ok {| FunctionName := function_arn;
         kwHandler := v;
         kwVariables := uninstalled_variables (default ∅ (Variables (config w)));
         kwLayers := skip_filter (get_arn_prefix region) (default [] (Layers (config w))) |},
   with_contents w uninstalled_variables (skip_filter (get_arn_prefix region))).
Proof.
  intros Hsup Hvalid Hv Ht. rewrite remove_unfold. simpl.
  by rewrite Hsup, Hvalid, Hv, Ht.
Qed.

Lemma skip_filter_head p (x : Layer) rest :
  startswith (Arn x) p = true →
  Forall (λ l, startswith (Arn l) p = false) rest →
  skip_filter p (x :: rest) = rest.
Proof.
  intros Hx Hrest. simpl. rewrite Hx.
  destruct Hrest as [|y rest Hy Hrest]; [reflexivity|].
  f_equal. by apply skip_filter_none.
Qed.

Lemma preserved_all region (layers : list Layer) :
  Forall (λ l, vendor get_arn_prefix region (Arn l) = false) layers →
  map Build_Layer
      (filter (λ a, _filter_new_relic_layers get_arn_prefix region a = true)
              (map _map_response_to_arns layers)) = layers.
Proof.
  induction 1 as [|[a] rest Ha _ IH]; [reflexivity|].
  simpl. rewrite filter_cons_True.
  - simpl. by rewrite IH.
  - unfold _filter_new_relic_layers. unfold vendor in Ha. simpl in *. by rewrite Ha.
Qed.

(** C3, as the code has it: on a supported runtime with the flavor it
    requires, for a configuration with no vendor-prefixed layer and a
    non-empty handler other than the instrumentation handler, an install
    with an account id that attaches a vendor-prefixed layer, followed by an
    uninstall on the patched configuration, gives back the original handler
    and the original layer list -- provided the recognition of handlers
    accepts the instrumentation handler and, for a ["java"] runtime, the
    configuration carries no non-empty [NEW_RELIC_LAMBDA_HANDLER] of its
    own. *)
Theorem add_then_remove_restores
    region function_arn layer_arn account_id java_type allow_upgrade w h h0 new :
  let runtime := runtime_of (config w) in
  handlerFor RUNTIME_CONFIG runtime java_type = Some h →
  is_valid_handler runtime h = true →
  Handler (config w) = Some h0 → h0 ≠ "" → h0 ≠ h →
  Forall (λ l, vendor get_arn_prefix region (Arn l) = false)
         (default [] (Layers (config w))) →
  truthy (of_opt account_id) = true →
  chosen_layer get_layers region runtime layer_arn = Some new →
  vendor get_arn_prefix region new = true →
  (startswith runtime "java" = true →
   truthy (env_get (config w) "NEW_RELIC_LAMBDA_HANDLER") = false) →
  ∃ kw w1 kw' w2,
    add region function_arn layer_arn account_id java_type allow_upgrade w = (Ok kw, w1) ∧
    remove region function_arn None
      {| config := update_function_configuration (config w1) kw; stdout := stdout w1 |}
      = (Ok kw', w2) ∧
    kwHandler kw' = PStr h0 ∧
    kwLayers kw' = default [] (Layers (config w)).
Proof.
  intros runtime Hh Hvalid Hcur Hne0 Hneh Hlayers Hacc Hnew Hvendor Hstale.
  subst runtime.
  rewrite add_unfold.
  rewrite (guards_pass account_id java_type allow_upgrade w h); [|done|done|].
  2:{ intros _. rewrite Hcur. congruence. }
  rewrite Hnew. cbv zeta.
  assert (Ht : truthy (PStr h0) = true).
  { simpl. by apply negb_true_iff, String.eqb_neq. }
  eexists _, _, _, _. split; [reflexivity|]. split.
  - apply (remove_ok _ _ _ _ (PStr h0)); simpl; try done.
    + by apply (handlerFor_supported _ java_type h).
    + unfold env_get, py_or, installed_variables. simpl. rewrite Hcur. simpl.
      replace (py_eq (PStr h0) (PStr h)) with false
        by (symmetry; apply py_eq_false; congruence).
      destruct (startswith (runtime_of (config w)) "java") eqn:Hj.
      * rewrite lookup_insert_eq, !lookup_insert_ne by done.
        specialize (Hstale eq_refl). unfold env_get in Hstale.
        destruct (Variables (config w)) as [vars|]; simpl in *.
        -- by rewrite Hstale.
        -- by rewrite lookup_empty.
      * rewrite lookup_insert_eq. simpl. simpl in Ht. by rewrite Ht.
  - cbn [kwHandler kwLayers update_function_configuration Layers config
         default map]. split; [done|].
    rewrite preserved_all by done.
    apply skip_filter_head; [done|].
    eapply Forall_impl; [exact Hlayers|]. done.
Qed.

End Properties.

(** ** The properties at the sample instance *)

(** C1: discovery returns two candidates and no explicit ARN is given; the
    call does not raise [MultipleLayersException]: it prints nothing and
    returns a patch with the first candidate. *)
Theorem add_two_candidates_takes_first :
  ∃ kw w',
    _add_new_relic Sample.RUNTIME_CONFIG Sample.get_arn_prefix Sample.get_layers2
      "us-east-1" "fn" None (Some "123") None false (Sample.world Sample.python_fresh)
      = (Ok kw, w') ∧
    length (Sample.get_layers2 "us-east-1" "python3.9") = 2 ∧
    kwLayers kw = [Sample.vendor_layer "NewRelicPython39:7"] ∧
    stdout w' = [].
Proof. eexists _, _. split; [vm_compute; reflexivity|]. by vm_compute. Qed.

(** C2: two vendor layers at adjacent positions; the second one is still
    in the returned layer list. *)
Theorem remove_keeps_second_adjacent_vendor_layer :
  ∃ kw,
    fst (Sample.remove "us-east-1" "fn" None (Sample.world Sample.python_two_vendor_layers))
      = Ok kw ∧
    kwLayers kw = [ {| Arn := Sample.vendor_layer "NewRelicLambdaExtension:3" |};
                    {| Arn := Sample.other_layer |} ] ∧
    vendor Sample.get_arn_prefix "us-east-1"
           (Sample.vendor_layer "NewRelicLambdaExtension:3") = true.
Proof. eexists. split; [vm_compute; reflexivity|]. by vm_compute. Qed.

(** C3 fails as stated: a supported java runtime with its flavor, no vendor
    layer, a handler other than the instrumentation handler, and a
    [NEW_RELIC_LAMBDA_HANDLER] variable of the function's own.  Install
    records the handler under [NEW_RELIC_GENERIC_HANDLER]; uninstall reads
    [NEW_RELIC_LAMBDA_HANDLER] first and restores its value instead. *)
Lemma add_then_remove_stale_marker :
  let w := Sample.world Sample.java_stale_marker in
  handlerFor Sample.RUNTIME_CONFIG "java11" (Some "handleRequest")
    = Some "com.newrelic.java.HandlerWrapper::handleRequest" ∧
  Handler (config w) = Some "example.Handler::handleRequest" ∧
  Forall (λ l, vendor Sample.get_arn_prefix "us-east-1" (Arn l) = false)
         (default [] (Layers (config w))) ∧
  ∃ kw w1 kw' w2,
    Sample.add "us-east-1" "fn" None (Some "123") (Some "handleRequest") false w
      = (Ok kw, w1) ∧
    Sample.remove "us-east-1" "fn" None
      {| config := update_function_configuration (config w1) kw; stdout := stdout w1 |}
      = (Ok kw', w2) ∧
    kwHandler kw' = PStr "stale.handler" ∧
    kwHandler kw' ≠ PStr "example.Handler::handleRequest".
Proof.
  cbv zeta. split; [by vm_compute|]. split; [reflexivity|]. split.
  - repeat constructor.
  - eexists _, _, _, _. split; [vm_compute; reflexivity|].
    split; [vm_compute; reflexivity|]. split; [reflexivity | discriminate].
Qed.

(** The other two ways the round trip is lost: an empty handler is
    recorded but not accepted as a marker by the uninstall, and an explicit
    layer ARN without the vendor's prefix stays attached. *)
Example add_then_remove_empty_handler :
  let w := Sample.world {| Runtime := Some "python3.9"; Handler := Some "";
                           Layers := None; Variables := None |} in
  ∃ kw w1,
    Sample.add "us-east-1" "fn" None (Some "123") None false w = (Ok kw, w1) ∧
    fst (Sample.remove "us-east-1" "fn" None
           {| config := update_function_configuration (config w1) kw;
              stdout := stdout w1 |})
      = Raise NotDetected_marker.
Proof. eexists _, _. split; by vm_compute. Qed.

Example add_then_remove_foreign_layer :
  let w := Sample.world Sample.python_fresh in
  ∃ kw w1 kw',
    Sample.add "us-east-1" "fn" (Some Sample.other_layer) (Some "123") None false w
      = (Ok kw, w1) ∧
    fst (Sample.remove "us-east-1" "fn" None
           {| config := update_function_configuration (config w1) kw;
              stdout := stdout w1 |})
      = Ok kw' ∧
    kwLayers kw' = [ {| Arn := Sample.other_layer |} ].
Proof.
  eexists _, _, _. split; [vm_compute; reflexivity|].
  split; [vm_compute; reflexivity|]. reflexivity.
Qed.

(** A successful install does write into the caller's configuration: the
    patch holds the very [Variables] dictionary of the input, so the account
    id and the marker are in the input afterwards.  Only failed calls leave
    it as it was. *)
Example add_success_writes_into_input :
  let w := Sample.world Sample.python_with_layer in
  ∃ kw w1,
    Sample.add "us-east-1" "fn" None (Some "123") None false w = (Ok kw, w1) ∧
    env_lookup (config w) "NEW_RELIC_LAMBDA_HANDLER" = None ∧
    env_lookup (config w1) "NEW_RELIC_LAMBDA_HANDLER" = Some (PStr "app.handler") ∧
    Variables (config w1) = Some (kwVariables kw).
Proof.
  eexists _, _. split; [vm_compute; reflexivity|].
  split; [by vm_compute|]. split; [by vm_compute | reflexivity].
Qed.


(** C8 fails as stated: both markers present, and the restored handler is
    the value of the single-entry key, not of the multi-entry key. *)
Lemma remove_both_markers_takes_single_entry :
  let w := Sample.world Sample.python_both_markers in
  env_lookup (config w) "NEW_RELIC_GENERIC_HANDLER" = Some (PStr "legacy.entry") ∧
  env_lookup (config w) "NEW_RELIC_LAMBDA_HANDLER" = Some (PStr "app.handler") ∧
  ∃ kw, fst (Sample.remove "us-east-1" "fn" None w) = Ok kw ∧
        kwHandler kw = PStr "app.handler" ∧
        kwHandler kw ≠ PStr "legacy.entry".
Proof.
  cbv zeta. split; [by vm_compute|]. split; [by vm_compute|].
  eexists. split; [vm_compute; reflexivity|]. split; [reflexivity | discriminate].
Qed.

(** ** The theorems at concrete inputs *)

Lemma add_then_remove_restores_witness :
  let w := Sample.world Sample.python_with_layer in
  ∃ kw w1 kw' w2,
    Sample.add "us-east-1" "fn" None (Some "123") None false w = (Ok kw, w1) ∧
    Sample.remove "us-east-1" "fn" None
      {| config := update_function_configuration (config w1) kw; stdout := stdout w1 |}
      = (Ok kw', w2) ∧
    kwHandler kw' = PStr "app.handler" ∧
    kwLayers kw' = default [] (Layers (config w)).
Proof.
  apply (add_then_remove_restores
           Sample.RUNTIME_CONFIG Sample.get_arn_prefix Sample.get_layers1
           Sample.is_valid_handler
           "us-east-1" "fn" None (Some "123") None false
           (Sample.world Sample.python_with_layer)
           "newrelic_lambda_wrapper.handler" "app.handler"
           (Sample.vendor_layer "NewRelicPython39:7")).
  - vm_compute; reflexivity.
  - vm_compute; reflexivity.
  - reflexivity.
  - discriminate.
  - discriminate.
  - repeat constructor.
  - reflexivity.
  - vm_compute; reflexivity.
  - vm_compute; reflexivity.
  - discriminate.
Defined.

Lemma add_upgrade_guard_keeps_marker_witness :
  let w := Sample.world Sample.python_installed in
  Sample.add "us-east-1" "fn" None (Some "123") None false w
    = (Raise AlreadyInstalled, w) ∧
  (truthy (of_opt None) = true ∨
   Sample.get_layers1 "us-east-1" (runtime_of (config w)) ≠ [] →
   ∃ kw,
     fst (Sample.add "us-east-1" "fn" None (Some "123") None true w) = Ok kw ∧
     kwHandler kw = PStr "newrelic_lambda_wrapper.handler" ∧
     kwVariables kw !! "NEW_RELIC_LAMBDA_HANDLER"
       = env_lookup (config w) "NEW_RELIC_LAMBDA_HANDLER" ∧
     kwVariables kw !! "NEW_RELIC_GENERIC_HANDLER"
       = env_lookup (config w) "NEW_RELIC_GENERIC_HANDLER").
Proof.
  apply (add_upgrade_guard_keeps_marker
           Sample.RUNTIME_CONFIG Sample.get_arn_prefix Sample.get_layers1
           "us-east-1" "fn" None (Some "123") None
           (Sample.world Sample.python_installed)
           "newrelic_lambda_wrapper.handler").
  - reflexivity.
  - vm_compute; reflexivity.
  - reflexivity.
Defined.


Lemma add_puts_new_layer_before_preserved_witness :
  let w := Sample.world Sample.python_with_layer in
  ∃ kw,
    fst (Sample.add "us-east-1" "fn" None (Some "123") None false w) = Ok kw ∧
    let input := map Arn (default [] (Layers (config w))) in
    let preserved :=
      filter (λ a, vendor Sample.get_arn_prefix "us-east-1" a = false) input in
    (∃ new, chosen_layer Sample.get_layers1 "us-east-1" (runtime_of (config w)) None
              = Some new ∧
            kwLayers kw = [new] ++ preserved) ∧
    (∀ a, a ∈ input → vendor Sample.get_arn_prefix "us-east-1" a = false →
          a ∈ kwLayers kw) ∧
    (∀ i j a b, kwLayers kw !! i = Some a → kwLayers kw !! j = Some b →
                vendor Sample.get_arn_prefix "us-east-1" a = true →
                vendor Sample.get_arn_prefix "us-east-1" b = false → i < j).
Proof.
  cbv zeta. eexists. split; [vm_compute; reflexivity|].
  apply (add_puts_new_layer_before_preserved
           Sample.RUNTIME_CONFIG Sample.get_arn_prefix Sample.get_layers1
           "us-east-1" "fn" None (Some "123") None false
           (Sample.world Sample.python_with_layer)).
  vm_compute; reflexivity.
Defined.


Lemma remove_reads_single_entry_marker_first_witness :
  let w := Sample.world Sample.python_both_markers in
  ∃ kw, fst (Sample.remove "us-east-1" "fn" None w) = Ok kw ∧
        kwHandler kw =
          if truthy (PStr "app.handler") then PStr "app.handler" else PStr "legacy.entry".
Proof.
  apply (remove_reads_single_entry_marker_first
           Sample.RUNTIME_CONFIG Sample.get_arn_prefix Sample.is_valid_handler
           "us-east-1" "fn" None (Sample.world Sample.python_both_markers)
           (PStr "app.handler") (PStr "legacy.entry")).
  - vm_compute; reflexivity.
  - vm_compute; reflexivity.
  - vm_compute; reflexivity.
  - vm_compute; reflexivity.
  - reflexivity.
Defined.

Lemma planners_fail_before_writing_witness :
  let w := Sample.world Sample.python_fresh in
  fst (Sample.add "us-east-1" "fn" None None None false w) = Raise MissingAccountId ∧
  config (snd (Sample.add "us-east-1" "fn" None None None false w)) = config w ∧
  fst (Sample.remove "us-east-1" "fn" None w) = Raise NotDetected_handler ∧
  config (snd (Sample.remove "us-east-1" "fn" None w)) = config w.
Proof.
  cbv zeta.
  destruct (planners_fail_before_writing
              Sample.RUNTIME_CONFIG Sample.get_arn_prefix Sample.get_layers1
              Sample.is_valid_handler
              "us-east-1" "fn" None None None false
              (Sample.world Sample.python_fresh)) as [Hadd Hremove].
  split; [vm_compute; reflexivity|]. split.
  - apply (Hadd MissingAccountId); [vm_compute; reflexivity | reflexivity].
  - split; [vm_compute; reflexivity|].
    apply (Hremove NotDetected_handler); [vm_compute; reflexivity | reflexivity].
Defined.

Lemma add_empty_discovery_index_error_witness :
  let w := Sample.world Sample.python_fresh in
  let add0 := _add_new_relic Sample.RUNTIME_CONFIG Sample.get_arn_prefix Sample.get_layers0 in
  Sample.get_layers0 "us-east-1" (runtime_of (config w)) = [] ∧
  add0 "us-east-1" "fn" None (Some "123") None false w = (Raise IndexError, w).
Proof.
  cbv zeta. split; [reflexivity|].
  eapply (add_empty_discovery_index_error
            Sample.RUNTIME_CONFIG Sample.get_arn_prefix Sample.get_layers0
            "us-east-1" "fn" None (Some "123") None false
            (Sample.world Sample.python_fresh)).
  - reflexivity.
  - reflexivity.
  - vm_compute; reflexivity.
Defined.

(** ** Further behaviour of the planners *)

Section PlannerBehaviour.

Variable RUNTIME_CONFIG : gmap string HandlerSpec.
Variable get_arn_prefix : string → string.
Variable get_layers : string → string → list LayerInfo.
Variable is_valid_handler : string → string → bool.

Abbreviation guards := (_add_new_relic_guards RUNTIME_CONFIG).
Abbreviation add := (_add_new_relic RUNTIME_CONFIG get_arn_prefix get_layers).
Abbreviation remove := (_remove_new_relic RUNTIME_CONFIG get_arn_prefix is_valid_handler).

Ltac run_guards :=
  unfold _add_new_relic_guards, runtime_of;
  unfold mbind, M_bind, mret, M_ret, when, raise, get_config; simpl.

(** *** Which errors, and in which order *)

Lemma guards_no_account account_id java_type allow_upgrade w :
  truthy (of_opt account_id) = false →
  fst (guards account_id java_type allow_upgrade w) = Raise MissingAccountId.
Proof. intros Hacc. run_guards. by rewrite Hacc. Qed.

Lemma guards_no_java_type account_id java_type allow_upgrade w :
  truthy (of_opt account_id) = true →
  startswith (runtime_of (config w)) "java" = true →
  truthy (of_opt java_type) = false →
  fst (guards account_id java_type allow_upgrade w) = Raise FlavorRequired.
Proof.
  intros Hacc Hjava Hjt. run_guards. unfold runtime_of in Hjava.
  by rewrite Hacc, Hjava, Hjt.
Qed.

(** [AttributeError] comes only from a ["java"] runtime whose row holds a
    plain string. *)
Lemma guards_attribute_error account_id java_type allow_upgrade w :
  fst (guards account_id java_type allow_upgrade w) = Raise AttributeError →
  startswith (runtime_of (config w)) "java" = true ∧
  ∃ s, RUNTIME_CONFIG !! runtime_of (config w) = Some (HString s).
Proof.
  run_guards.
  destruct (truthy (of_opt account_id)); simpl; [|done].
  destruct (startswith _ "java") eqn:Hjava; simpl.
  - destruct (truthy (of_opt java_type)); simpl; [|done].
    destruct (RUNTIME_CONFIG !! _) as [[s|m]|] eqn:Hrow; simpl; [eauto| |];
      destruct (negb allow_upgrade && _); simpl; try done;
      destruct (unsupported _ _); simpl; done.
  - destruct (negb allow_upgrade && _); simpl; try done;
      destruct (unsupported _ _); simpl; done.
Qed.

(** Each error of the guards, with the condition it is raised under. *)
Lemma guards_conditions account_id java_type allow_upgrade w e :
  fst (guards account_id java_type allow_upgrade w) = Raise e →
  (e = MissingAccountId ∧ truthy (of_opt account_id) = false) ∨
  (e = FlavorRequired ∧ truthy (of_opt account_id) = true ∧
   startswith (runtime_of (config w)) "java" = true ∧
   truthy (of_opt java_type) = false) ∨
  (e = AlreadyInstalled ∧ truthy (of_opt account_id) = true ∧ allow_upgrade = false) ∨
  (e = UnsupportedRuntime (runtime_of (config w)) ∧
   truthy (of_opt account_id) = true ∧
   unsupported RUNTIME_CONFIG (runtime_of (config w)) = true) ∨
  e = AttributeError.
Proof.
  assert (Htail : ∀ rh : pyval,
    fst ((when (negb allow_upgrade && py_eq (of_opt (Handler (config w))) rh)
               (raise (UpdateLambdaException msg_installed));;
          when (unsupported RUNTIME_CONFIG (runtime_of (config w)))
               (raise (UpdateLambdaException (msg_unsupported (runtime_of (config w)))));;
          mret (config w, runtime_of (config w), of_opt (Handler (config w)), rh)) w)
      = Raise e →
    (e = AlreadyInstalled ∧ allow_upgrade = false) ∨
    (e = UnsupportedRuntime (runtime_of (config w)) ∧
     unsupported RUNTIME_CONFIG (runtime_of (config w)) = true)).
  { intros rh. unfold mbind, M_bind, mret, M_ret, when, raise. simpl.
    destruct allow_upgrade; simpl.
    - destruct (unsupported _ _); simpl; [intros [= <-]; auto | done].
    - destruct (py_eq _ rh); simpl; [intros [= <-]; auto|].
      destruct (unsupported _ _); simpl; [intros [= <-]; auto | done]. }
  run_guards. fold (runtime_of (config w)).
  destruct (truthy (of_opt account_id)) eqn:Hacc; simpl; [|intros [= <-]; auto].
  destruct (startswith _ "java") eqn:Hjava; simpl.
  - destruct (truthy (of_opt java_type)) eqn:Hjt; simpl; [|intros [= <-]; auto 6].
    destruct (RUNTIME_CONFIG !! _) as [[s|m]|] eqn:Hrow; simpl.
    + intros [= <-]. auto 6.
    + intros He. destruct (Htail (of_opt (m !! default "" java_type)) He)
        as [[-> ->]|[-> ?]]; auto 8.
    + intros He. destruct (Htail PNone He) as [[-> ->]|[-> ?]]; auto 8.
  - intros He. destruct (Htail (table_handler RUNTIME_CONFIG (runtime_of (config w))) He)
      as [[-> ->]|[-> ?]]; auto 8.
Qed.

(** X1: an explicit layer ARN is taken verbatim and discovery plays no part:
    the outcome and the final state are the same whatever [get_layers] would
    return, and a returned patch has the explicit ARN as its first layer. *)
Theorem add_explicit_layer_skips_discovery
    (get_layers' : string → string → list LayerInfo)
    region function_arn layer_arn account_id java_type allow_upgrade w :
  truthy (of_opt layer_arn) = true →
  add region function_arn layer_arn account_id java_type allow_upgrade w =
    _add_new_relic RUNTIME_CONFIG get_arn_prefix get_layers'
      region function_arn layer_arn account_id java_type allow_upgrade w ∧
  (∀ kw,
     fst (add region function_arn layer_arn account_id java_type allow_upgrade w) = Ok kw →
     of_opt (head (kwLayers kw)) = of_opt layer_arn).
Proof.
  intros Hl.
  assert (Hc : ∀ gl rt, chosen_layer gl region rt layer_arn = layer_arn).
  { intros gl rt. unfold chosen_layer. by rewrite Hl. }
  split.
  - rewrite !add_unfold.
    destruct (fst (guards _ _ _ w)) as [[[[info rt] orig] rh]|e]; [|done].
    by rewrite !Hc.
  - intros kw Hok. apply add_ok_inv in Hok as (rh & new & _ & Hnew & ->).
    rewrite Hc in Hnew. by rewrite Hnew.
Qed.

(** X2: on an unsupported runtime (["provider"], or a runtime the table does
    not have) no patch is returned, whatever the other arguments: the call
    ends in [UpdateLambdaException] with the state as it was. *)
Theorem add_unsupported_runtime_never_patches
    region function_arn layer_arn account_id java_type allow_upgrade w :
  unsupported RUNTIME_CONFIG (runtime_of (config w)) = true →
  ∃ msg, add region function_arn layer_arn account_id java_type allow_upgrade w
         = (Raise (UpdateLambdaException msg), w).
Proof.
  intros Hun. rewrite add_unfold.
  destruct (fst (guards _ _ _ w)) as [x|e] eqn:Hg.
  - destruct (guards_ok _ _ _ _ _ _ Hg) as (_ & _ & Hsup & _). congruence.
  - destruct (guards_raise _ _ _ _ _ _ Hg) as [[msg Hm] | Ha]; subst e; [eauto|].
    apply guards_attribute_error in Hg as [Hjava [s Hrow]].
    unfold unsupported in Hun. rewrite Hrow in Hun. simpl in Hun.
    rewrite orb_false_r in Hun. apply String.eqb_eq in Hun.
    rewrite Hun in Hjava. discriminate.
Qed.

(** X3: the order of the guards.  Without an account id the call fails
    with the missing-account error whatever the configuration; with one, a
    runtime starting with ["java"] and no handler type fails with the
    handler-type error, whether or not the runtime is supported or already
    instrumented. *)
Theorem add_error_precedence
    region function_arn layer_arn account_id java_type allow_upgrade w :
  (truthy (of_opt account_id) = false →
   add region function_arn layer_arn account_id java_type allow_upgrade w
     = (Raise MissingAccountId, w)) ∧
  (truthy (of_opt account_id) = true →
   startswith (runtime_of (config w)) "java" = true →
   truthy (of_opt java_type) = false →
   add region function_arn layer_arn account_id java_type allow_upgrade w
     = (Raise FlavorRequired, w)).
Proof.
  split.
  - intros Hacc. rewrite add_unfold. by rewrite guards_no_account.
  - intros Hacc Hjava Hjt. rewrite add_unfold. by rewrite guards_no_java_type.
Qed.

(** X4: a configuration with no ["Handler"] on a runtime the table does not
    have (a function deployed as a container image has neither) is reported
    as already installed when [allow_upgrade] is false: the missing handler
    and the missing table row are both [None], and [None == None] passes
    the test of line 55 before the runtime is checked. *)
Theorem add_missing_handler_reported_installed
    region function_arn layer_arn account_id java_type w :
  Handler (config w) = None →
  RUNTIME_CONFIG !! runtime_of (config w) = None →
  truthy (of_opt account_id) = true →
  (startswith (runtime_of (config w)) "java" = true →
   truthy (of_opt java_type) = true) →
  unsupported RUNTIME_CONFIG (runtime_of (config w)) = true ∧
  add region function_arn layer_arn account_id java_type false w
    = (Raise AlreadyInstalled, w).
Proof.
  intros Hh Hrow Hacc Hjt. split.
  - unfold unsupported. rewrite Hrow. simpl. apply orb_true_r.
  - rewrite add_unfold.
    replace (fst (guards account_id java_type false w)) with (@Raise
      (FunctionInfo * string * pyval * pyval) AlreadyInstalled); [done|].
    symmetry. run_guards. unfold runtime_of, table_handler in *.
    rewrite Hacc, Hh, Hrow. simpl.
    destruct (startswith _ "java"); simpl; [rewrite Hjt by done|]; done.
Qed.

(** X5: a handler type the table does not know is not rejected.  On a
    supported ["java"] runtime, a call with such a handler type returns a
    patch whose handler is [None], and records the current handler under
    [NEW_RELIC_GENERIC_HANDLER]. *)
Theorem add_unknown_java_type_patches_none
    region function_arn layer_arn account_id allow_upgrade w m t h0 new :
  startswith (runtime_of (config w)) "java" = true →
  unsupported RUNTIME_CONFIG (runtime_of (config w)) = false →
  RUNTIME_CONFIG !! runtime_of (config w) = Some (HDict m) →
  t ≠ "" → m !! t = None →
  Handler (config w) = Some h0 →
  truthy (of_opt account_id) = true →
  chosen_layer get_layers region (runtime_of (config w)) layer_arn = Some new →
  ∃ kw,
    fst (add region function_arn layer_arn account_id (Some t) allow_upgrade w) = Ok kw ∧
    kwHandler kw = PNone ∧
    kwVariables kw !! "NEW_RELIC_GENERIC_HANDLER" = Some (PStr h0).
Proof.
  intros Hjava Hsup Hrow Ht Hm Hh Hacc Hnew.
  assert (Hg : fst (guards account_id (Some t) allow_upgrade w) =
               Ok (config w, runtime_of (config w), PStr h0, PNone)).
  { run_guards. unfold runtime_of in *.
    rewrite Hacc, Hjava, Hh, Hrow. simpl.
    replace (negb (t =? "")%string) with true
      by (symmetry; by apply negb_true_iff, String.eqb_neq).
    simpl. rewrite Hm. simpl.
    replace (py_eq (PStr h0) PNone) with false by (symmetry; by apply py_eq_false).
    rewrite andb_false_r. simpl. by rewrite Hsup. }
  rewrite add_unfold, Hg, Hnew. eexists; split; [reflexivity|]. simpl.
  split; [done|]. unfold installed_variables.
  replace (py_eq (PStr h0) PNone) with false by (symmetry; by apply py_eq_false).
  rewrite Hjava. by rewrite lookup_insert_eq.
Qed.

(** *** The environment of the install patch *)

(** X6: the variables of a returned install patch.  The account id is
    under [NEW_RELIC_ACCOUNT_ID]; every variable other than the account id
    and the two markers is as the input had it, present or absent; and when
    the handler found differs from the patch's handler, it is recorded under
    [NEW_RELIC_GENERIC_HANDLER] for a ["java"] runtime and under
    [NEW_RELIC_LAMBDA_HANDLER] otherwise, the other marker key staying as it
    was. *)
Theorem add_variables_frame
    region function_arn layer_arn account_id java_type allow_upgrade w kw :
  fst (add region function_arn layer_arn account_id java_type allow_upgrade w) = Ok kw →
  let orig_handler := of_opt (Handler (config w)) in
  let java := startswith (runtime_of (config w)) "java" in
  let marker := if java then "NEW_RELIC_GENERIC_HANDLER" else "NEW_RELIC_LAMBDA_HANDLER" in
  let other := if java then "NEW_RELIC_LAMBDA_HANDLER" else "NEW_RELIC_GENERIC_HANDLER" in
  kwVariables kw !! "NEW_RELIC_ACCOUNT_ID" = Some (of_opt account_id) ∧
  truthy (of_opt account_id) = true ∧
  (∀ key, key ≠ "NEW_RELIC_ACCOUNT_ID" → key ≠ "NEW_RELIC_GENERIC_HANDLER" →
          key ≠ "NEW_RELIC_LAMBDA_HANDLER" →
          kwVariables kw !! key = env_lookup (config w) key) ∧
  (orig_handler ≠ kwHandler kw →
   kwVariables kw !! marker = Some orig_handler ∧
   kwVariables kw !! other = env_lookup (config w) other).
Proof.
  intros Hok. destruct (add_ok_inv _ _ _ _ _ _ _ _ _ _ _ Hok) as (rh & new & Hg & _ & ->).
  destruct (guards_ok _ _ _ _ _ _ Hg) as (_ & Hacc & _).
  cbn [kwVariables kwHandler]. unfold env_lookup.
  assert (Hbase : ∀ key, key ≠ "NEW_RELIC_ACCOUNT_ID" →
            (<["NEW_RELIC_ACCOUNT_ID" := of_opt account_id]>
               (default ∅ (Variables (config w))) : gmap string pyval) !! key
            = Variables (config w) ≫= λ vars, vars !! key).
  { intros key Hk. rewrite lookup_insert_ne by done.
    by destruct (Variables (config w)). }
  assert (Hbase0 : installed_variables (default ∅ (Variables (config w))) account_id
                     (runtime_of (config w)) (of_opt (Handler (config w))) rh
                   !! "NEW_RELIC_ACCOUNT_ID" = Some (of_opt account_id)).
  { unfold installed_variables. destruct (py_eq _ rh).
    - by rewrite lookup_insert_eq.
    - destruct (startswith _ "java"); by rewrite lookup_insert_ne, lookup_insert_eq. }
  split; [by rewrite Hbase0|]. split; [done|]. split.
  - intros key H1 H2 H3. rewrite <- Hbase by done. unfold installed_variables.
    destruct (py_eq _ rh); [done|].
    destruct (startswith _ "java"); by rewrite lookup_insert_ne.
  - intros Hne. apply py_eq_false in Hne. unfold installed_variables. rewrite Hne.
    destruct (startswith (runtime_of (config w)) "java").
    + split; [by rewrite lookup_insert_eq|].
      rewrite lookup_insert_ne by done. by apply Hbase.
    + split; [by rewrite lookup_insert_eq|].
      rewrite lookup_insert_ne by done. by apply Hbase.
Qed.

(** X7: a successful install writes into its input.  The patch holds the
    [Variables] dictionary of the configuration itself, so after the call
    the configuration's variables are the patch's; a configuration without
    variables stays without, and its runtime, handler and layers are never
    touched. *)
Theorem add_success_shares_variables
    region function_arn layer_arn account_id java_type allow_upgrade w kw w1 :
  add region function_arn layer_arn account_id java_type allow_upgrade w = (Ok kw, w1) →
  Variables (config w1) = (λ _, kwVariables kw) <$> Variables (config w) ∧
  Runtime (config w1) = Runtime (config w) ∧
  Handler (config w1) = Handler (config w) ∧
  Layers (config w1) = Layers (config w).
Proof.
  rewrite add_unfold.
  destruct (fst (guards _ _ _ w)) as [x|e] eqn:Hg; [|done].
  destruct (guards_ok _ _ _ _ _ _ Hg) as (-> & _).
  destruct (chosen_layer _ _ _ _) as [new|]; [|done].
  cbv zeta. intros [= <- <-]. simpl.
  repeat split; by destruct (config w) as [? ? [?|] [?|]].
Qed.

(** X8: neither planner prints.  The listing of the discovered candidates
    is behind the test that never holds, and nothing else writes to the
    standard output. *)
Theorem planners_never_print
    region function_arn layer_arn account_id java_type allow_upgrade w :
  stdout (snd (add region function_arn layer_arn account_id java_type allow_upgrade w))
    = stdout w ∧
  stdout (snd (remove region function_arn layer_arn w)) = stdout w.
Proof.
  split.
  - rewrite add_unfold.
    destruct (fst (guards _ _ _ w)) as [[[[info rt] orig] rh]|e]; [|done].
    by destruct (chosen_layer _ _ _ _).
  - rewrite remove_unfold. simpl.
    destruct (unsupported _ _); [done|].
    destruct (is_valid_handler _ _); [|done].
    by destruct (truthy _).
Qed.

(** *** The uninstall patch *)

Lemma remove_ok_inv region function_arn layer_arn w kw w1 :
  remove region function_arn layer_arn w = (Ok kw, w1) →
  let v := py_or (env_get (config w) "NEW_RELIC_LAMBDA_HANDLER")
                 (env_get (config w) "NEW_RELIC_GENERIC_HANDLER") in
  unsupported RUNTIME_CONFIG (runtime_of (config w)) = false ∧
  is_valid_handler (runtime_of (config w)) (default "" (Handler (config w))) = true ∧
  truthy v = true ∧
  kw = {| FunctionName := function_arn;
          kwHandler := v;
          kwVariables := uninstalled_variables (default ∅ (Variables (config w)));
          kwLayers := skip_filter (get_arn_prefix region)
                                  (default [] (Layers (config w))) |} ∧
  w1 = with_contents w uninstalled_variables (skip_filter (get_arn_prefix region)).
Proof.
  rewrite remove_unfold. simpl.
  destruct (unsupported _ _); [done|].
  destruct (is_valid_handler _ _); [|done].
  destruct (truthy _) eqn:Ht; [|done].
  intros [= <- <-]. done.
Qed.

Lemma remove_ok_inv_fst region function_arn layer_arn w kw :
  fst (remove region function_arn layer_arn w) = Ok kw →
  ∃ w1, remove region function_arn layer_arn w = (Ok kw, w1).
Proof.
  destruct (remove region function_arn layer_arn w) as [r w1] eqn:Hr.
  simpl. intros ->. eauto.
Qed.

Lemma truthy_env_get_variables info key :
  truthy (env_get info key) = true → is_Some (Variables info).
Proof. unfold env_get. by destruct (Variables info). Qed.

(** X9: the variables of a returned uninstall patch.  The two markers and
    the account id are absent, and every other variable is as the input had
    it. *)
Theorem remove_variables_frame region function_arn layer_arn w kw :
  fst (remove region function_arn layer_arn w) = Ok kw →
  kwVariables kw !! "NEW_RELIC_LAMBDA_HANDLER" = None ∧
  kwVariables kw !! "NEW_RELIC_GENERIC_HANDLER" = None ∧
  kwVariables kw !! "NEW_RELIC_ACCOUNT_ID" = None ∧
  (∀ key, key ≠ "NEW_RELIC_ACCOUNT_ID" → key ≠ "NEW_RELIC_GENERIC_HANDLER" →
          key ≠ "NEW_RELIC_LAMBDA_HANDLER" →
          kwVariables kw !! key = env_lookup (config w) key).
Proof.
  intros Hok. apply remove_ok_inv_fst in Hok as [w1 Hok].
  apply remove_ok_inv in Hok as (_ & _ & Ht & -> & _).
  cbn [kwVariables]. unfold uninstalled_variables, env_lookup.
  split; [by rewrite !lookup_delete_ne, lookup_delete_eq by done|].
  split; [by rewrite lookup_delete_ne, lookup_delete_eq by done|].
  split; [by rewrite lookup_delete_eq|].
  intros key H1 H2 H3. rewrite !lookup_delete_ne by done.
  destruct (Variables (config w)) as [vars|] eqn:Hv; [done|].
  unfold py_or, env_get in Ht. rewrite Hv in Ht. done.
Qed.

(** X10: a successful uninstall writes into its input.  After the call the
    configuration's own variables and layer list are those of the patch
    (the markers and the account id are gone from the input too), while its
    handler is still the instrumentation handler: the original handler is
    only in the patch. *)
Theorem remove_success_mutates_input region function_arn layer_arn w kw w1 :
  remove region function_arn layer_arn w = (Ok kw, w1) →
  Variables (config w1) = Some (kwVariables kw) ∧
  Layers (config w1) = (λ _, kwLayers kw) <$> Layers (config w) ∧
  Handler (config w1) = Handler (config w) ∧
  Runtime (config w1) = Runtime (config w).
Proof.
  intros Hok. apply remove_ok_inv in Hok as (_ & _ & Ht & -> & ->).
  simpl. split; [|split; [|done]].
  - destruct (Variables (config w)) as [vars|] eqn:Hv; [done|].
    unfold py_or, env_get in Ht. rewrite Hv in Ht. done.
  - by destruct (Layers (config w)).
Qed.

(** X11: a second uninstall on the same configuration object fails.  The
    first call has deleted the markers from the object itself, so the second
    one finds the handler still recognised and no marker, and raises the
    not-detected error. *)
Theorem remove_twice_not_detected
    region function_arn layer_arn region' function_arn' layer_arn' w kw w1 :
  remove region function_arn layer_arn w = (Ok kw, w1) →
  remove region' function_arn' layer_arn' w1 = (Raise NotDetected_marker, w1).
Proof.
  intros Hok. apply remove_ok_inv in Hok as (Hsup & Hvalid & Ht & _ & ->).
  rewrite remove_unfold. cbv zeta.
  change (runtime_of (config (with_contents w _ _))) with (runtime_of (config w)).
  change (Handler (config (with_contents w _ _))) with (Handler (config w)).
  rewrite Hsup, Hvalid.
  assert (Hgone : ∀ key, key = "NEW_RELIC_LAMBDA_HANDLER" ∨ key = "NEW_RELIC_GENERIC_HANDLER" →
            env_get (config (with_contents w uninstalled_variables
                               (skip_filter (get_arn_prefix region)))) key = PNone).
  { intros key Hk. unfold env_get, with_contents, uninstalled_variables. simpl.
    destruct (Variables (config w)) as [vars|]; [|done]. simpl.
    destruct Hk as [-> | ->].
    - by rewrite !lookup_delete_ne, lookup_delete_eq by done.
    - by rewrite lookup_delete_ne, lookup_delete_eq by done. }
  rewrite !Hgone by auto. done.
Qed.

(** X16: an uninstall never restores an empty handler.  The handler of a
    returned patch is non-empty and is the value of one of the two marker
    variables of the input. *)
Theorem remove_restores_a_marker_value region function_arn layer_arn w kw :
  fst (remove region function_arn layer_arn w) = Ok kw →
  truthy (kwHandler kw) = true ∧
  (env_lookup (config w) "NEW_RELIC_LAMBDA_HANDLER" = Some (kwHandler kw) ∨
   env_lookup (config w) "NEW_RELIC_GENERIC_HANDLER" = Some (kwHandler kw)).
Proof.
  intros Hok. apply remove_ok_inv_fst in Hok as [w1 Hok].
  apply remove_ok_inv in Hok as (_ & _ & Ht & -> & _).
  cbn [kwHandler]. split; [done|].
  unfold py_or in *. rewrite !env_get_lookup in *.
  destruct (truthy (default PNone (env_lookup (config w) "NEW_RELIC_LAMBDA_HANDLER")))
    eqn:H1.
  - left. by destruct (env_lookup (config w) "NEW_RELIC_LAMBDA_HANDLER").
  - right. by destruct (env_lookup (config w) "NEW_RELIC_GENERIC_HANDLER").
Qed.

(** *** The layers of the uninstall patch *)

(** Induction along the rounds of the deletion loop: a deleted layer takes
    the next one with it, unexamined. *)
Lemma skip_filter_rounds p (P : list Layer → list Layer → Prop) :
  P [] [] →
  (∀ x, startswith (Arn x) p = true → P [x] []) →
  (∀ x y rest, startswith (Arn x) p = true →
     P rest (skip_filter p rest) → P (x :: y :: rest) (y :: skip_filter p rest)) →
  (∀ x rest, startswith (Arn x) p = false →
     P rest (skip_filter p rest) → P (x :: rest) (x :: skip_filter p rest)) →
  ∀ layers, P layers (skip_filter p layers).
Proof.
  intros Hnil Hone Hdel Hkeep layers.
  remember (length layers) as n eqn:Hn.
  assert (Hle : length layers ≤ n) by lia. clear Hn.
  revert layers Hle. induction n as [|n IH]; intros layers Hle.
  - destruct layers; [exact Hnil | simpl in Hle; lia].
  - destruct layers as [|x rest]; [exact Hnil|]. simpl in *.
    destruct (startswith (Arn x) p) eqn:Hx.
    + destruct rest as [|y rest']; [by apply Hone|].
      apply Hdel; [done|]. apply IH. simpl in Hle. lia.
    + apply Hkeep; [done|]. apply IH. lia.
Qed.

(** X12: an uninstall never drops a layer of the function's own.  The
    returned layers are a sublist of the input's, in the input's order, and
    the layers without the vendor's prefix are all there. *)
Theorem remove_keeps_non_vendor_layers region function_arn layer_arn w kw :
  fst (remove region function_arn layer_arn w) = Ok kw →
  let input := default [] (Layers (config w)) in
  kwLayers kw `sublist_of` input ∧
  filter (λ l, vendor get_arn_prefix region (Arn l) = false) (kwLayers kw) =
  filter (λ l, vendor get_arn_prefix region (Arn l) = false) input.
Proof.
  intros Hok. apply remove_ok_inv_fst in Hok as [w1 Hok].
  apply remove_ok_inv in Hok as (_ & _ & _ & -> & _).
  cbn [kwLayers]. cbv zeta. unfold vendor.
  generalize (default [] (Layers (config w))). intros layers. split.
  - apply (skip_filter_rounds (get_arn_prefix region) (λ l out, out `sublist_of` l)).
    + constructor.
    + intros x _. apply sublist_nil_l.
    + intros x y rest _ IH. by apply sublist_cons, sublist_skip.
    + intros x rest _ IH. by apply sublist_skip.
  - apply skip_filter_keeps_others.
Qed.

(** X13: when no vendor layer is directly followed by another vendor
    layer, an uninstall removes them all: the returned layers are exactly
    the input layers without the vendor's prefix, in order. *)
Theorem remove_all_vendor_layers_when_apart region function_arn layer_arn w kw :
  fst (remove region function_arn layer_arn w) = Ok kw →
  let input := default [] (Layers (config w)) in
  (∀ i a b, input !! i = Some a → input !! S i = Some b →
            vendor get_arn_prefix region (Arn a) = true →
            vendor get_arn_prefix region (Arn b) = false) →
  kwLayers kw = filter (λ l, vendor get_arn_prefix region (Arn l) = false) input.
Proof.
  intros Hok. apply remove_ok_inv_fst in Hok as [w1 Hok].
  apply remove_ok_inv in Hok as (_ & _ & _ & -> & _).
  cbn [kwLayers]. cbv zeta. unfold vendor.
  generalize (default [] (Layers (config w))). intros layers.
  apply (skip_filter_rounds (get_arn_prefix region)
           (λ l out,
              (∀ i a b, l !! i = Some a → l !! S i = Some b →
                        startswith (Arn a) (get_arn_prefix region) = true →
                        startswith (Arn b) (get_arn_prefix region) = false) →
              out = filter (λ l, startswith (Arn l) (get_arn_prefix region) = false) l)).
  - done.
  - intros x Hx _. rewrite filter_cons_False; [done | rewrite Hx; discriminate].
  - intros x y rest Hx IH Hap.
    pose proof (Hap 0 x y eq_refl eq_refl Hx) as Hy.
    rewrite filter_cons_False by (rewrite Hx; discriminate).
    rewrite filter_cons_True by done. f_equal. apply IH.
    intros i a b Ha Hb. by apply (Hap (S (S i))).
  - intros x rest Hx IH Hap.
    rewrite filter_cons_True by done. f_equal. apply IH.
    intros i a b Ha Hb. by apply (Hap (S i)).
Qed.

(** X14: an uninstall removes at least half of the vendor layers, and at
    least one when there is one: twice the number of vendor-prefixed layers
    returned is at most their number in the input. *)
Theorem remove_halves_vendor_layers region function_arn layer_arn w kw :
  fst (remove region function_arn layer_arn w) = Ok kw →
  let count layers :=
    length (filter (λ l, vendor get_arn_prefix region (Arn l) = true) layers) in
  2 * count (kwLayers kw) ≤ count (default [] (Layers (config w))).
Proof.
  intros Hok. apply remove_ok_inv_fst in Hok as [w1 Hok].
  apply remove_ok_inv in Hok as (_ & _ & _ & -> & _).
  cbn [kwLayers]. cbv zeta. unfold vendor.
  generalize (default [] (Layers (config w))). intros layers.
  apply (skip_filter_rounds (get_arn_prefix region)
           (λ l out,
              2 * length (filter (λ l, startswith (Arn l) (get_arn_prefix region) = true) out)
              ≤ length (filter (λ l, startswith (Arn l) (get_arn_prefix region) = true) l))).
  - done.
  - intros x Hx. rewrite filter_cons_True by done. simpl. lia.
  - intros x y rest Hx IH. rewrite (filter_cons_True _ x) by done.
    rewrite !(filter_cons _ y). destruct (decide _); simpl; lia.
  - intros x rest Hx IH.
    rewrite !filter_cons_False by (rewrite Hx; discriminate). done.
Qed.

(** *** The errors of the taxonomy and their conditions *)

(** X15: every error of the taxonomy is raised only under its own
    condition.  An uninstall raises the unsupported-runtime error only on an
    unsupported runtime, the unrecognised-handler error only on a supported
    runtime whose handler is not recognised, and the missing-marker error
    only when both markers are empty or absent.  An install raises the
    missing-account error only without an account id, the handler-type
    error only on a ["java"] runtime without a handler type, the
    already-installed error only with [allow_upgrade] false, the
    unsupported-runtime error only on an unsupported runtime, never
    [MultipleLayersException], and [IndexError] only on a supported runtime
    with no explicit ARN and an empty discovery. *)
Theorem planners_errors_have_their_conditions
    region function_arn layer_arn account_id java_type allow_upgrade w e :
  let runtime := runtime_of (config w) in
  (fst (remove region function_arn layer_arn w) = Raise e →
   is_taxonomy e = true →
   (e = UnsupportedRuntime runtime ∧ unsupported RUNTIME_CONFIG runtime = true) ∨
   (e = NotDetected_handler ∧ unsupported RUNTIME_CONFIG runtime = false ∧
    is_valid_handler runtime (default "" (Handler (config w))) = false) ∨
   (e = NotDetected_marker ∧ unsupported RUNTIME_CONFIG runtime = false ∧
    is_valid_handler runtime (default "" (Handler (config w))) = true ∧
    truthy (env_get (config w) "NEW_RELIC_LAMBDA_HANDLER") = false ∧
    truthy (env_get (config w) "NEW_RELIC_GENERIC_HANDLER") = false)) ∧
  (fst (add region function_arn layer_arn account_id java_type allow_upgrade w) = Raise e →
   is_taxonomy e = true ∨ e = IndexError →
   (e = MissingAccountId ∧ truthy (of_opt account_id) = false) ∨
   (e = FlavorRequired ∧ truthy (of_opt account_id) = true ∧
    startswith runtime "java" = true ∧ truthy (of_opt java_type) = false) ∨
   (e = AlreadyInstalled ∧ truthy (of_opt account_id) = true ∧ allow_upgrade = false) ∨
   (e = UnsupportedRuntime runtime ∧ truthy (of_opt account_id) = true ∧
    unsupported RUNTIME_CONFIG runtime = true) ∨
   (e = IndexError ∧ unsupported RUNTIME_CONFIG runtime = false ∧
    truthy (of_opt layer_arn) = false ∧ get_layers region runtime = [])).
Proof.
  cbv zeta. split.
  - rewrite remove_unfold. cbv zeta. intros He _. revert He.
    destruct (unsupported _ _) eqn:Hsup; [intros [= <-]; auto|].
    destruct (is_valid_handler _ _) eqn:Hvalid; [|intros [= <-]; auto].
    destruct (truthy (py_or _ _)) eqn:Ht; [done|]. intros [= <-].
    rewrite truthy_py_or in Ht. apply orb_false_elim in Ht as [? ?]. auto 8.
  - rewrite add_unfold.
    destruct (fst (guards _ _ _ w)) as [x|e'] eqn:Hg.
    + destruct (guards_ok _ _ _ _ _ _ Hg) as (-> & _ & Hsup & _).
      destruct (chosen_layer _ _ _ _) as [new|] eqn:Hc; [done|].
      simpl. intros [= <-] _. do 4 right. split; [done|]. split; [done|].
      unfold chosen_layer in Hc.
      destruct (truthy (of_opt layer_arn)) eqn:Hl.
      * destruct layer_arn; done.
      * split; [done|]. by destruct (get_layers _ _).
    + simpl. intros [= ->] Hkind.
      destruct (guards_conditions _ _ _ _ _ Hg) as [?|[?|[?|[?|Ha]]]]; auto 8.
      subst e. by destruct Hkind.
Qed.

End PlannerBehaviour.

(** ** The listing *)

Section ListingProperties.

Variable get_arn_prefix : string → string.

Abbreviation mark := (mark_enabled get_arn_prefix).
Abbreviation has_vendor := (has_vendor_layer get_arn_prefix).
Abbreviation page := (list_functions_page get_arn_prefix).
Abbreviation pages_of := (list_functions_pages get_arn_prefix).

Lemma mark_enabled_fields region f :
  FunctionArn (mark region f) = FunctionArn f ∧
  entry_Layers (mark region f) = entry_Layers f ∧
  x_new_relic_enabled (mark region f) =
    if has_vendor region f then Some true else x_new_relic_enabled f.
Proof.
  unfold mark_enabled, has_vendor_layer.
  generalize (default [] (entry_Layers f)). intros layers.
  assert (H : ∀ g,
    let r := foldl (λ f layer,
                      if startswith (default "" (ref_Arn layer)) (get_arn_prefix region)
                      then set_enabled f else f) g layers in
    FunctionArn r = FunctionArn g ∧ entry_Layers r = entry_Layers g ∧
    x_new_relic_enabled r =
      if existsb (λ layer, startswith (default "" (ref_Arn layer)) (get_arn_prefix region))
                 layers
      then Some true else x_new_relic_enabled g).
  { induction layers as [|layer layers IH]; intros g; simpl; [done|].
    destruct (IH (if startswith (default "" (ref_Arn layer)) (get_arn_prefix region)
                  then set_enabled g else g)) as (Ha & Hl & Hx).
    rewrite Ha, Hl, Hx.
    destruct (startswith (default "" (ref_Arn layer)) (get_arn_prefix region)); simpl;
      [|done].
    by destruct (existsb _ layers). }
  apply H.
Qed.

Lemma has_vendor_mark region f :
  has_vendor region (mark region f) = has_vendor region f.
Proof.
  unfold has_vendor_layer. by destruct (mark_enabled_fields region f) as (_ & -> & _).
Qed.

(** The pages are walked as one list. *)
Lemma page_app all fc region l1 l2 :
  page all fc region (l1 ++ l2) =
  match page all fc region l1 with
  | (yielded, StopIteration) =>
      let '(more, e) := page all fc region l2 in (yielded ++ more, e)
  | (yielded, Raised e) => (yielded, Raised e)
  end.
Proof.
  induction l1 as [|f l1 IH]; simpl.
  - by destruct (page all fc region l2).
  - destruct (select all fc (mark region f)); [|done|done].
    rewrite IH. destruct (page all fc region l1) as [ys [|e]]; [|done].
    by destruct (page all fc region l2).
Qed.

Lemma pages_flat all fc region pages :
  pages_of all fc region pages = page all fc region (functions_of pages).
Proof.
  unfold functions_of. induction pages as [|p pages IH]; simpl; [done|].
  rewrite page_app, IH. by destruct (page all fc region (default [] p)) as [ys [|e]].
Qed.

(** X17: with the filter ["all"], or none, the generator yields every
    function of every page, in order, each after the marking loop, and ends
    without an exception. *)
Theorem list_functions_all region quiet filter_choice pages :
  filter_choice = Some "all" ∨ filter_choice = Some "" ∨ filter_choice = None →
  list_functions get_arn_prefix region quiet filter_choice pages =
  (map (mark region) (functions_of pages), StopIteration).
Proof.
  intros Hf. unfold list_functions. rewrite pages_flat.
  replace (bool_decide (filter_choice = Some "all") || negb (truthy (of_opt filter_choice)))
    with true by (by destruct Hf as [->|[->| ->]]).
  induction (functions_of pages) as [|f funcs IH]; simpl; [done|].
  by rewrite IH.
Qed.

(** X18: with the filter ["installed"], on functions as the provider gives
    them (without the key), the generator yields the functions up to the
    first one with no vendor layer and raises [KeyError] there: the key it
    reads was never set on that function.  It ends normally only when every
    function has a vendor layer. *)
Theorem list_functions_installed region quiet pages :
  Forall (λ f, x_new_relic_enabled f = None) (functions_of pages) →
  list_functions get_arn_prefix region quiet (Some "installed") pages =
  (map (mark region) (leading (has_vendor region) (functions_of pages)),
   if forallb (has_vendor region) (functions_of pages)
   then StopIteration else Raised KeyError).
Proof.
  intros Hno. unfold list_functions. rewrite pages_flat.
  change (bool_decide (Some "installed" = Some "all")
          || negb (truthy (of_opt (Some "installed")))) with false.
  induction Hno as [|f funcs Hf _ IH]; simpl; [done|].
  unfold select, enabled_item.
  destruct (mark_enabled_fields region f) as (_ & _ & ->). rewrite Hf.
  change (bool_decide (Some "installed" = Some "installed")) with true.
  destruct (has_vendor region f); simpl; [|done].
  by rewrite IH.
Qed.

(** X19: with the filter ["not_installed"] the generator never yields a
    function.  On functions as the provider gives them, a function with a
    vendor layer is passed over and the first one without raises
    [KeyError]. *)
Theorem list_functions_not_installed region quiet pages :
  Forall (λ f, x_new_relic_enabled f = None) (functions_of pages) →
  list_functions get_arn_prefix region quiet (Some "not_installed") pages =
  ([], if forallb (has_vendor region) (functions_of pages)
       then StopIteration else Raised KeyError).
Proof.
  intros Hno. unfold list_functions. rewrite pages_flat.
  change (bool_decide (Some "not_installed" = Some "all")
          || negb (truthy (of_opt (Some "not_installed")))) with false.
  induction Hno as [|f funcs Hf _ IH]; simpl; [done|].
  unfold select, enabled_item.
  destruct (mark_enabled_fields region f) as (_ & _ & ->). rewrite Hf.
  change (bool_decide (Some "not_installed" = Some "installed")) with false.
  change (bool_decide (Some "not_installed" = Some "not_installed")) with true.
  cbv iota.
  destruct (has_vendor region f); simpl; [|done].
  by rewrite IH.
Qed.

(** X20: any other filter value yields nothing and raises nothing: the key
    is read only under the two known values. *)
Theorem list_functions_unknown_filter region quiet choice pages :
  choice ≠ "" → choice ≠ "all" → choice ≠ "installed" → choice ≠ "not_installed" →
  list_functions get_arn_prefix region quiet (Some choice) pages = ([], StopIteration).
Proof.
  intros H0 H1 H2 H3. unfold list_functions. rewrite pages_flat.
  rewrite (bool_decide_eq_false_2 (Some choice = Some "all")) by congruence.
  simpl. replace (choice =? "")%string with false
    by (symmetry; by apply String.eqb_neq).
  simpl.
  induction (functions_of pages) as [|f funcs IH]; simpl; [done|].
  unfold select.
  rewrite (bool_decide_eq_false_2 (Some choice = Some "installed")) by congruence.
  rewrite (bool_decide_eq_false_2 (Some choice = Some "not_installed")) by congruence.
  done.
Qed.

(** X21: what a yielded function carries.  Whatever the filter, a yielded
    function is a function of the pages with its name and layers as they
    were, and (on functions as the provider gives them) the key is [True]
    when it has a vendor layer and absent otherwise: it is never [False]. *)
Theorem list_functions_marks region quiet filter_choice pages g :
  Forall (λ f, x_new_relic_enabled f = None) (functions_of pages) →
  g ∈ fst (list_functions get_arn_prefix region quiet filter_choice pages) →
  ∃ f, f ∈ functions_of pages ∧
       FunctionArn g = FunctionArn f ∧ entry_Layers g = entry_Layers f ∧
       x_new_relic_enabled g = (if has_vendor region f then Some true else None).
Proof.
  intros Hno. unfold list_functions. rewrite pages_flat.
  generalize (bool_decide (filter_choice = Some "all")
              || negb (truthy (of_opt filter_choice))). intros all.
  induction Hno as [|f funcs Hf _ IH]; simpl; [by intros ?%elem_of_nil|].
  assert (Hsel : ∀ f', select all filter_choice (mark region f) = Yield f' →
                       f' = mark region f).
  { unfold select. intros f'. destruct all; [congruence|].
    destruct (if bool_decide _ then _ else _) as [[|]|]; [congruence| |done].
    destruct (if bool_decide _ then _ else _) as [[|]|]; [congruence|done|done]. }
  destruct (select all filter_choice (mark region f)) as [f'| |e] eqn:Hs.
  - destruct (page all filter_choice region funcs) as [ys e]. simpl in *.
    intros [->|Hin]%elem_of_cons.
    + rewrite (Hsel _ eq_refl). exists f. split; [left|].
      destruct (mark_enabled_fields region f) as (-> & -> & ->). by rewrite Hf.
    + destruct (IH Hin) as (f0 & Hf0 & ?). exists f0. split; [by right | done].
  - intros Hin. destruct (IH Hin) as (f0 & Hf0 & ?). exists f0.
    split; [by right | done].
  - by intros ?%elem_of_nil.
Qed.

End ListingProperties.

(** ** The lookups of the GraphQL client *)

Section ClientProperties.

Variable get_linked_accounts : list GQL.LinkedAccount.
Variable integrations_of : Z → list GQL.Integration.

Lemma find_first {A} (test : A → bool) (pre : list A) x post :
  Forall (λ y, test y = false) pre → test x = true →
  List.find test (pre ++ x :: post) = Some x.
Proof.
  induction 1 as [|y pre Hy _ IH]; intros Hx; simpl.
  - by rewrite Hx.
  - rewrite Hy. by apply IH.
Qed.

Lemma find_none {A} (test : A → bool) (l : list A) :
  List.find test l = None ↔ Forall (λ y, test y = false) l.
Proof.
  induction l as [|y l IH]; simpl; [by split; [constructor|]|].
  destruct (test y) eqn:Hy.
  - split; [done|]. intros H. inversion H; congruence.
  - rewrite IH. split; [by constructor|]. intros H. by inversion H.
Qed.

(** X22: [get_linked_account_by_name] returns the first account of the
    answer with the name asked for, whatever comes after it, and [None]
    exactly when no account has that name. *)
Theorem get_linked_account_by_name_first account_name :
  (∀ pre a post,
     get_linked_accounts = pre ++ a :: post →
     Forall (λ b, GQL.la_name b ≠ account_name) pre →
     GQL.la_name a = account_name →
     GQL.get_linked_account_by_name get_linked_accounts account_name = Some a) ∧
  (GQL.get_linked_account_by_name get_linked_accounts account_name = None ↔
   Forall (λ b, GQL.la_name b ≠ account_name) get_linked_accounts).
Proof.
  unfold GQL.get_linked_account_by_name. split.
  - intros pre a post -> Hpre Ha. apply find_first.
    + eapply Forall_impl; [exact Hpre|]. intros b Hb. by apply String.eqb_neq.
    + by apply String.eqb_eq.
  - rewrite find_none. apply Forall_iff. intros b. apply String.eqb_neq.
Qed.

(** X23: [is_integration_enabled] answers for the first integration of the
    linked account whose service has the slug: its result is that
    integration's flag, even if a later integration with the same slug says
    otherwise; and it is [None], not [False], exactly when no integration
    has the slug. *)
Theorem is_integration_enabled_first linked_account_id service_slug :
  (∀ pre i post,
     integrations_of linked_account_id = pre ++ i :: post →
     Forall (λ j, GQL.slug (GQL.service j) ≠ service_slug) pre →
     GQL.slug (GQL.service i) = service_slug →
     GQL.is_integration_enabled integrations_of linked_account_id service_slug
       = Some (GQL.isEnabled (GQL.service i))) ∧
  (GQL.is_integration_enabled integrations_of linked_account_id service_slug = None ↔
   Forall (λ j, GQL.slug (GQL.service j) ≠ service_slug)
          (integrations_of linked_account_id)).
Proof.
  unfold GQL.is_integration_enabled, GQL.get_integration_by_service_slug. split.
  - intros pre i post -> Hpre Hi. rewrite find_first; [done| |].
    + eapply Forall_impl; [exact Hpre|]. intros b Hb. by apply String.eqb_neq.
    + by apply String.eqb_eq.
  - cbv zeta.
    destruct (find _ (integrations_of linked_account_id)) as [i|] eqn:Hfind.
    + split; [done|]. intros Hall.
      assert (Hnone : find (λ i, String.eqb (GQL.slug (GQL.service i)) service_slug)
                           (integrations_of linked_account_id) = None).
      { apply find_none. eapply Forall_impl; [exact Hall|].
        intros b Hb. by apply String.eqb_neq. }
      congruence.
    + split; [|done]. intros _. apply find_none in Hfind.
      eapply Forall_impl; [exact Hfind|]. intros b Hb. by apply String.eqb_neq.
Qed.

End ClientProperties.

(** ** The further properties at concrete inputs *)

Lemma add_explicit_layer_skips_discovery_witness :
  let w := Sample.world Sample.python_fresh in
  let explicit := Some (Sample.vendor_layer "NewRelicPython39:5") in
  Sample.add "us-east-1" "fn" explicit (Some "123") None false w =
    _add_new_relic Sample.RUNTIME_CONFIG Sample.get_arn_prefix Sample.get_layers0
      "us-east-1" "fn" explicit (Some "123") None false w ∧
  (∀ kw,
     fst (Sample.add "us-east-1" "fn" explicit (Some "123") None false w) = Ok kw →
     of_opt (head (kwLayers kw)) = of_opt explicit).
Proof.
  apply (add_explicit_layer_skips_discovery
           Sample.RUNTIME_CONFIG Sample.get_arn_prefix Sample.get_layers1
           Sample.get_layers0 "us-east-1" "fn"
           (Some (Sample.vendor_layer "NewRelicPython39:5")) (Some "123") None false
           (Sample.world Sample.python_fresh)).
  vm_compute; reflexivity.
Defined.

Lemma add_unsupported_runtime_never_patches_witness :
  let w := Sample.world Cases.ruby_function in
  unsupported Sample.RUNTIME_CONFIG (runtime_of (config w)) = true ∧
  ∃ msg, Sample.add "us-east-1" "fn" None (Some "123") None true w
         = (Raise (UpdateLambdaException msg), w).
Proof.
  cbv zeta. split; [vm_compute; reflexivity|].
  apply (add_unsupported_runtime_never_patches
           Sample.RUNTIME_CONFIG Sample.get_arn_prefix Sample.get_layers1
           "us-east-1" "fn" None (Some "123") None true
           (Sample.world Cases.ruby_function)).
  vm_compute; reflexivity.
Defined.

Lemma add_error_precedence_witness :
  let w := Sample.world Cases.java_fresh in
  Sample.add "us-east-1" "fn" None None None false w = (Raise MissingAccountId, w) ∧
  Sample.add "us-east-1" "fn" None (Some "123") None false w = (Raise FlavorRequired, w).
Proof.
  cbv zeta. split.
  - apply (add_error_precedence
             Sample.RUNTIME_CONFIG Sample.get_arn_prefix Sample.get_layers1
             "us-east-1" "fn" None None None false (Sample.world Cases.java_fresh)).
    reflexivity.
  - apply (add_error_precedence
             Sample.RUNTIME_CONFIG Sample.get_arn_prefix Sample.get_layers1
             "us-east-1" "fn" None (Some "123") None false
             (Sample.world Cases.java_fresh)); reflexivity.
Defined.

Lemma add_missing_handler_reported_installed_witness :
  let w := Sample.world Cases.container_image in
  unsupported Sample.RUNTIME_CONFIG (runtime_of (config w)) = true ∧
  Sample.add "us-east-1" "fn" None (Some "123") None false w
    = (Raise AlreadyInstalled, w).
Proof.
  apply (add_missing_handler_reported_installed
           Sample.RUNTIME_CONFIG Sample.get_arn_prefix Sample.get_layers1
           "us-east-1" "fn" None (Some "123") None
           (Sample.world Cases.container_image)).
  - reflexivity.
  - vm_compute; reflexivity.
  - reflexivity.
  - discriminate.
Defined.

Lemma add_unknown_java_type_patches_none_witness :
  ∃ kw,
    fst (Sample.add "us-east-1" "fn" None (Some "123") (Some "handleEvent") false
           (Sample.world Cases.java_fresh)) = Ok kw ∧
    kwHandler kw = PNone ∧
    kwVariables kw !! "NEW_RELIC_GENERIC_HANDLER"
      = Some (PStr "example.Handler::handleRequest").
Proof.
  apply (add_unknown_java_type_patches_none
           Sample.RUNTIME_CONFIG Sample.get_arn_prefix Sample.get_layers1
           "us-east-1" "fn" None (Some "123") false (Sample.world Cases.java_fresh)
           {[ "handleRequest" := "com.newrelic.java.HandlerWrapper::handleRequest";
              "handleStreamsRequest" :=
                "com.newrelic.java.HandlerWrapper::handleStreamsRequest" ]}
           "handleEvent" "example.Handler::handleRequest"
           (Sample.vendor_layer "NewRelicPython39:7")).
  - reflexivity.
  - vm_compute; reflexivity.
  - vm_compute; reflexivity.
  - discriminate.
  - vm_compute; reflexivity.
  - reflexivity.
  - reflexivity.
  - vm_compute; reflexivity.
Defined.

Lemma add_variables_frame_witness :
  let w := Sample.world Sample.python_with_layer in
  ∃ kw,
    fst (Sample.add "us-east-1" "fn" None (Some "123") None false w) = Ok kw ∧
    kwVariables kw !! "NEW_RELIC_ACCOUNT_ID" = Some (PStr "123") ∧
    kwVariables kw !! "STAGE" = Some (PStr "prod") ∧
    kwVariables kw !! "NEW_RELIC_LAMBDA_HANDLER" = Some (PStr "app.handler") ∧
    kwVariables kw !! "NEW_RELIC_GENERIC_HANDLER" = None.
Proof.
  cbv zeta. eexists. split; [vm_compute; reflexivity|].
  destruct (add_variables_frame
              Sample.RUNTIME_CONFIG Sample.get_arn_prefix Sample.get_layers1
              "us-east-1" "fn" None (Some "123") None false
              (Sample.world Sample.python_with_layer) _ eq_refl)
    as (Hacc & _ & Hframe & Hmarker).
  split; [exact Hacc|]. split; [by apply Hframe|].
  apply Hmarker. discriminate.
Defined.

Lemma add_success_shares_variables_witness :
  let w := Sample.world Sample.python_with_layer in
  ∃ kw w1,
    Sample.add "us-east-1" "fn" None (Some "123") None false w = (Ok kw, w1) ∧
    Variables (config w1) = (λ _, kwVariables kw) <$> Variables (config w) ∧
    Runtime (config w1) = Runtime (config w) ∧
    Handler (config w1) = Handler (config w) ∧
    Layers (config w1) = Layers (config w).
Proof.
  cbv zeta. eexists _, _. split; [vm_compute; reflexivity|].
  apply (add_success_shares_variables
           Sample.RUNTIME_CONFIG Sample.get_arn_prefix Sample.get_layers1
           "us-east-1" "fn" None (Some "123") None false
           (Sample.world Sample.python_with_layer)).
  vm_compute; reflexivity.
Defined.

Lemma remove_variables_frame_witness :
  let w := Sample.world Sample.python_installed in
  ∃ kw,
    fst (Sample.remove "us-east-1" "fn" None w) = Ok kw ∧
    kwVariables kw !! "NEW_RELIC_LAMBDA_HANDLER" = None ∧
    kwVariables kw !! "NEW_RELIC_GENERIC_HANDLER" = None ∧
    kwVariables kw !! "NEW_RELIC_ACCOUNT_ID" = None ∧
    (∀ key, key ≠ "NEW_RELIC_ACCOUNT_ID" → key ≠ "NEW_RELIC_GENERIC_HANDLER" →
            key ≠ "NEW_RELIC_LAMBDA_HANDLER" →
            kwVariables kw !! key = env_lookup (config w) key).
Proof.
  cbv zeta. eexists. split; [vm_compute; reflexivity|].
  apply (remove_variables_frame
           Sample.RUNTIME_CONFIG Sample.get_arn_prefix Sample.is_valid_handler
           "us-east-1" "fn" None (Sample.world Sample.python_installed)).
  vm_compute; reflexivity.
Defined.

Lemma remove_success_mutates_input_witness :
  let w := Sample.world Sample.python_installed in
  ∃ kw w1,
    Sample.remove "us-east-1" "fn" None w = (Ok kw, w1) ∧
    Variables (config w1) = Some (kwVariables kw) ∧
    Layers (config w1) = (λ _, kwLayers kw) <$> Layers (config w) ∧
    Handler (config w1) = Handler (config w) ∧
    Runtime (config w1) = Runtime (config w).
Proof.
  cbv zeta. eexists _, _. split; [vm_compute; reflexivity|].
  apply (remove_success_mutates_input
           Sample.RUNTIME_CONFIG Sample.get_arn_prefix Sample.is_valid_handler
           "us-east-1" "fn" None (Sample.world Sample.python_installed)).
  vm_compute; reflexivity.
Defined.

Lemma remove_twice_not_detected_witness :
  let w := Sample.world Sample.python_installed in
  ∃ kw w1,
    Sample.remove "us-east-1" "fn" None w = (Ok kw, w1) ∧
    Sample.remove "us-east-1" "fn" None w1 = (Raise NotDetected_marker, w1).
Proof.
  cbv zeta. eexists _, _. split; [vm_compute; reflexivity|].
  eapply (remove_twice_not_detected
            Sample.RUNTIME_CONFIG Sample.get_arn_prefix Sample.is_valid_handler
            "us-east-1" "fn" None "us-east-1" "fn" None
            (Sample.world Sample.python_installed)).
  vm_compute; reflexivity.
Defined.

Lemma remove_restores_a_marker_value_witness :
  let w := Sample.world Sample.python_installed in
  ∃ kw,
    fst (Sample.remove "us-east-1" "fn" None w) = Ok kw ∧
    truthy (kwHandler kw) = true ∧
    (env_lookup (config w) "NEW_RELIC_LAMBDA_HANDLER" = Some (kwHandler kw) ∨
     env_lookup (config w) "NEW_RELIC_GENERIC_HANDLER" = Some (kwHandler kw)).
Proof.
  cbv zeta. eexists. split; [vm_compute; reflexivity|].
  apply (remove_restores_a_marker_value
           Sample.RUNTIME_CONFIG Sample.get_arn_prefix Sample.is_valid_handler
           "us-east-1" "fn" None (Sample.world Sample.python_installed)).
  vm_compute; reflexivity.
Defined.

Lemma remove_keeps_non_vendor_layers_witness :
  let w := Sample.world Sample.python_two_vendor_layers in
  ∃ kw,
    fst (Sample.remove "us-east-1" "fn" None w) = Ok kw ∧
    let input := default [] (Layers (config w)) in
    kwLayers kw `sublist_of` input ∧
    filter (λ l, vendor Sample.get_arn_prefix "us-east-1" (Arn l) = false) (kwLayers kw) =
    filter (λ l, vendor Sample.get_arn_prefix "us-east-1" (Arn l) = false) input.
Proof.
  cbv zeta. eexists. split; [vm_compute; reflexivity|].
  apply (remove_keeps_non_vendor_layers
           Sample.RUNTIME_CONFIG Sample.get_arn_prefix Sample.is_valid_handler
           "us-east-1" "fn" None (Sample.world Sample.python_two_vendor_layers)).
  vm_compute; reflexivity.
Defined.

Lemma remove_all_vendor_layers_when_apart_witness :
  let w := Sample.world Sample.python_installed in
  ∃ kw,
    fst (Sample.remove "us-east-1" "fn" None w) = Ok kw ∧
    kwLayers kw =
      filter (λ l, vendor Sample.get_arn_prefix "us-east-1" (Arn l) = false)
             (default [] (Layers (config w))).
Proof.
  cbv zeta. eexists. split; [vm_compute; reflexivity|].
  apply (remove_all_vendor_layers_when_apart
           Sample.RUNTIME_CONFIG Sample.get_arn_prefix Sample.is_valid_handler
           "us-east-1" "fn" None (Sample.world Sample.python_installed)).
  - vm_compute; reflexivity.
  - intros [|[|i]] a b Ha Hb Hv; simpl in Ha, Hb; simplify_eq; by vm_compute.
Defined.

Lemma remove_halves_vendor_layers_witness :
  let w := Sample.world Sample.python_two_vendor_layers in
  ∃ kw,
    fst (Sample.remove "us-east-1" "fn" None w) = Ok kw ∧
    let count layers :=
      length (filter (λ l, vendor Sample.get_arn_prefix "us-east-1" (Arn l) = true)
                     layers) in
    2 * count (kwLayers kw) ≤ count (default [] (Layers (config w))).
Proof.
  cbv zeta. eexists. split; [vm_compute; reflexivity|].
  apply (remove_halves_vendor_layers
           Sample.RUNTIME_CONFIG Sample.get_arn_prefix Sample.is_valid_handler
           "us-east-1" "fn" None (Sample.world Sample.python_two_vendor_layers)).
  vm_compute; reflexivity.
Defined.

Lemma planners_errors_have_their_conditions_witness :
  let w := Sample.world Sample.python_fresh in
  let add0 :=
    _add_new_relic Sample.RUNTIME_CONFIG Sample.get_arn_prefix Sample.get_layers0 in
  fst (add0 "us-east-1" "fn" None (Some "123") None false w) = Raise IndexError ∧
  unsupported Sample.RUNTIME_CONFIG (runtime_of (config w)) = false ∧
  truthy (of_opt None) = false ∧
  Sample.get_layers0 "us-east-1" (runtime_of (config w)) = [].
Proof.
  cbv zeta. split; [vm_compute; reflexivity|].
  destruct (planners_errors_have_their_conditions
              Sample.RUNTIME_CONFIG Sample.get_arn_prefix Sample.get_layers0
              Sample.is_valid_handler
              "us-east-1" "fn" None (Some "123") None false
              (Sample.world Sample.python_fresh) IndexError) as [_ Hadd].
  destruct Hadd as [[H _]|[[H _]|[[H _]|[[H _]|(_ & Hs & Hl & Hd)]]]];
    [vm_compute; reflexivity | right; reflexivity | discriminate H.. | ].
  by repeat split.
Defined.

Lemma list_functions_all_witness :
  list_functions Sample.get_arn_prefix "us-east-1" false None Cases.pages =
  (map (mark_enabled Sample.get_arn_prefix "us-east-1") (functions_of Cases.pages),
   StopIteration) ∧
  length (fst (list_functions Sample.get_arn_prefix "us-east-1" false None Cases.pages)) = 3.
Proof.
  assert (H := list_functions_all Sample.get_arn_prefix "us-east-1" false None Cases.pages
                 (or_intror (or_intror eq_refl))).
  split; [exact H|]. rewrite H. reflexivity.
Defined.

Lemma list_functions_installed_witness :
  Forall (λ f, x_new_relic_enabled f = None) (functions_of Cases.pages) ∧
  list_functions Sample.get_arn_prefix "us-east-1" false (Some "installed") Cases.pages =
  (map (mark_enabled Sample.get_arn_prefix "us-east-1")
       (leading (has_vendor_layer Sample.get_arn_prefix "us-east-1")
                (functions_of Cases.pages)),
   if forallb (has_vendor_layer Sample.get_arn_prefix "us-east-1")
              (functions_of Cases.pages)
   then StopIteration else Raised KeyError).
Proof.
  assert (Hno : Forall (λ f, x_new_relic_enabled f = None) (functions_of Cases.pages))
    by (repeat constructor).
  split; [exact Hno|].
  exact (list_functions_installed Sample.get_arn_prefix "us-east-1" false Cases.pages Hno).
Defined.

Lemma list_functions_not_installed_witness :
  Forall (λ f, x_new_relic_enabled f = None) (functions_of Cases.pages) ∧
  list_functions Sample.get_arn_prefix "us-east-1" false (Some "not_installed") Cases.pages =
  ([], if forallb (has_vendor_layer Sample.get_arn_prefix "us-east-1")
                  (functions_of Cases.pages)
       then StopIteration else Raised KeyError).
Proof.
  assert (Hno : Forall (λ f, x_new_relic_enabled f = None) (functions_of Cases.pages))
    by (repeat constructor).
  split; [exact Hno|].
  exact (list_functions_not_installed Sample.get_arn_prefix "us-east-1" false
           Cases.pages Hno).
Defined.

Lemma list_functions_unknown_filter_witness :
  list_functions Sample.get_arn_prefix "us-east-1" false (Some "enabled") Cases.pages
    = ([], StopIteration).
Proof.
  apply (list_functions_unknown_filter Sample.get_arn_prefix "us-east-1" false
           "enabled" Cases.pages); discriminate.
Defined.

Lemma list_functions_marks_witness :
  let g := mark_enabled Sample.get_arn_prefix "us-east-1" Cases.fn_b in
  g ∈ fst (list_functions Sample.get_arn_prefix "us-east-1" false (Some "all") Cases.pages) ∧
  ∃ f, f ∈ functions_of Cases.pages ∧
       FunctionArn g = FunctionArn f ∧ entry_Layers g = entry_Layers f ∧
       x_new_relic_enabled g =
         (if has_vendor_layer Sample.get_arn_prefix "us-east-1" f then Some true else None).
Proof.
  cbv zeta.
  assert (Hin : mark_enabled Sample.get_arn_prefix "us-east-1" Cases.fn_b
                ∈ fst (list_functions Sample.get_arn_prefix "us-east-1" false
                         (Some "all") Cases.pages)).
  { apply list_elem_of_lookup. exists 1. reflexivity. }
  split; [exact Hin|].
  apply (list_functions_marks Sample.get_arn_prefix "us-east-1" false (Some "all")
           Cases.pages _ ltac:(repeat constructor) Hin).
Defined.

Lemma get_linked_account_by_name_first_witness :
  GQL.get_linked_account_by_name Cases.accounts "prod"
    = Some {| GQL.la_id := 2; GQL.la_name := "prod" |}.
Proof.
  apply (get_linked_account_by_name_first Cases.accounts "prod")
    with (pre := [ {| GQL.la_id := 1; GQL.la_name := "staging" |} ])
         (post := [ {| GQL.la_id := 3; GQL.la_name := "prod" |} ]).
  - reflexivity.
  - repeat constructor. discriminate.
  - reflexivity.
Defined.

Lemma is_integration_enabled_first_witness :
  GQL.is_integration_enabled Cases.integrations 7 "lambda" = Some false.
Proof.
  apply (is_integration_enabled_first Cases.integrations 7 "lambda")
    with (pre := [ {| GQL.int_id := 10; GQL.int_name := "S3";
                      GQL.service := {| GQL.slug := "s3"; GQL.isEnabled := true |} |} ])
         (i := {| GQL.int_id := 11; GQL.int_name := "Lambda";
                  GQL.service := {| GQL.slug := "lambda"; GQL.isEnabled := false |} |})
         (post := [ {| GQL.int_id := 12; GQL.int_name := "Lambda again";
                       GQL.service := {| GQL.slug := "lambda"; GQL.isEnabled := true |} |} ]).
  - reflexivity.
  - repeat constructor. discriminate.
  - reflexivity.
Defined.
